(** * Real-Time Attendance System: a shallow embedding of its decision logic

    The development follows the three Streamlit pages of the repository:

    - [pages/2_Student Management.py]: [normalize_folder_name], the
      [allow_capture] guard, the capture loop and the save of the encodings
      and of the registry row ([INSERT OR REPLACE INTO students]);
    - [pages/1_Capture Attendance.py]: [send_attendance_email],
      [mark_attendance], [load_known_faces], the recognition test
      ([np.argmin] and the 0.4 threshold), today's report with its synthesis
      of Absent records, and [toggle_status];
    - [pages/3_Attendance Records.py]: the Save Changes handler.

    Python strings are Rocq strings whose characters are the code points
    U+0000..U+00FF; the SQLite tables are lists of rows in rowid order,
    together with the AUTOINCREMENT sequence; the encodings directory and
    the dataset directory are finite maps from file names to contents; the
    messages Streamlit shows and the e-mails sent are an explicit trace. *)

From Stdlib Require Import QArith.
From stdpp Require Import base option list strings gmap sorting.
From Stdlib Require Import Ascii String.

Local Open Scope string_scope.
Local Open Scope list_scope.

(** ** Python string builtins used by the pages *)

Module PyStr.

(** [str.isspace] on one character (code points below 256). *)
Definition is_space (c : ascii) : bool :=
  let n := nat_of_ascii c in
  (((9 <=? n) && (n <=? 13)) || ((28 <=? n) && (n <=? 32))
   || (n =? 133) || (n =? 160))%nat.

(** [str.lower] on one character: A-Z, and the Latin-1 capitals
    U+00C0..U+00DE without the multiplication sign U+00D7. *)
Definition lower_char (c : ascii) : ascii :=
  let n := nat_of_ascii c in
  if (((65 <=? n) && (n <=? 90))
      || ((192 <=? n) && (n <=? 222) && negb (n =? 215)))%nat
  then ascii_of_nat (n + 32) else c.

Fixpoint lower (s : string) : string :=
  match s with
  | EmptyString => EmptyString
  | String c s' => String (lower_char c) (lower s')
  end.

Fixpoint lstrip (s : string) : string :=
  match s with
  | EmptyString => EmptyString
  | String c s' => if is_space c then lstrip s' else s
  end.

Fixpoint rstrip (s : string) : string :=
  match s with
  | EmptyString => EmptyString
  | String c s' =>
      match rstrip s' with
      | EmptyString => if is_space c then EmptyString else String c EmptyString
      | t => String c t
      end
  end.

(** [s.strip()] *)
Definition strip (s : string) : string := rstrip (lstrip s).

(** [s.replace(a, b)] for one-character [a] and [b]. *)
Fixpoint replace (a b : ascii) (s : string) : string :=
  match s with
  | EmptyString => EmptyString
  | String c s' =>
      String (if Ascii.eqb c a then b else c) (replace a b s')
  end.

(** [s.split()]: the maximal runs of non-space characters.  [cur] is the
    token being read, reversed by [flush]. *)
Definition flush (cur : list ascii) (acc : list string) : list string :=
  match cur with
  | [] => acc
  | _ => string_of_list_ascii (rev cur) :: acc
  end.

Fixpoint split_go (s : string) (cur : list ascii) : list string :=
  match s with
  | EmptyString => flush cur []
  | String c s' =>
      if is_space c then flush cur (split_go s' [])
      else split_go s' (c :: cur)
  end.

Definition split (s : string) : list string := split_go s [].

(** [s.rsplit(sep, 1)] for a one-character [sep]: [None] when [sep] does
    not occur (Python then returns the one-element list [[s]]), and
    otherwise the text before and after the last occurrence. *)
Fixpoint rsplit1 (sep : ascii) (s : string) : option (string * string) :=
  match s with
  | EmptyString => None
  | String c s' =>
      match rsplit1 sep s' with
      | Some (l, r) => Some (String c l, r)
      | None => if Ascii.eqb c sep then Some (EmptyString, s') else None
      end
  end.

(** [c in s] *)
Fixpoint contains (c : ascii) (s : string) : bool :=
  match s with
  | EmptyString => false
  | String a s' => Ascii.eqb a c || contains c s'
  end.

(** A string that does not start with a space. *)
Definition starts_clean (s : string) : Prop :=
  match s with
  | EmptyString => True
  | String c _ => is_space c = false
  end.

(** Truthiness of a string: [if s:] *)
Definition truthy (s : string) : bool :=
  match s with EmptyString => false | _ => true end.

End PyStr.

(** ** Student Management: the enrollment identifier *)

(** [normalize_folder_name(name, reg_no)] *)
Definition normalize_folder_name (name reg_no : string) : string :=
  let name := PyStr.replace " " "_" (PyStr.lower (PyStr.strip name)) in
  let reg_no := PyStr.lower (PyStr.strip reg_no) in
  name ++ "_" ++ reg_no.

(** [name_valid]: [len(student_name.strip().split()) == 3 if student_name
    else False] *)
Definition name_valid (student_name : string) : bool :=
  PyStr.truthy student_name
  && (List.length (PyStr.split (PyStr.strip student_name)) =? 3)%nat.

(** The decoding done by [load_known_faces] for one file stem:
    [name_part, reg_no = name_with_reg.rsplit("_", 1)] and
    [full_name = name_part.replace("_", " ").strip().lower()].
    [None] is the [ValueError] of the unpacking when there is no
    underscore. *)
Definition decode_identifier (name_with_reg : string)
  : option (string * string) :=
  match PyStr.rsplit1 "_" name_with_reg with
  | Some (name_part, reg_no) =>
      Some (PyStr.lower (PyStr.strip (PyStr.replace "_" " " name_part)),
            reg_no)
  | None => None
  end.

(** ** The SQLite database [database/attendance.db] *)

(** A row of [students(id, full_name, reg_no UNIQUE, folder_name,
    image_count, registration_date)]. *)
Record student_row := mk_student {
  s_id : nat;
  s_full_name : string;
  s_reg_no : string;
  s_folder_name : string;
  s_image_count : nat;
  s_registration_date : string
}.

(** A row of [attendance(id, full_name, reg_no, date, time, status)]. *)
Record attendance_row := mk_attendance {
  a_id : nat;
  a_full_name : string;
  a_reg_no : string;
  a_date : string;
  a_time : string;
  a_status : string
}.

(** Both tables, in rowid order, each with the value SQLite keeps in
    [sqlite_sequence] for its AUTOINCREMENT key. *)
Record database := mk_db {
  students : list student_row;
  students_seq : nat;
  attendance : list attendance_row;
  attendance_seq : nat
}.

Definition empty_db : database := mk_db [] 0 [] 0.

(** The rowid AUTOINCREMENT gives to the next inserted row: one more than
    the largest rowid the table has ever held. *)
Definition next_rowid (seq : nat) (ids : list nat) : nat :=
  S (Nat.max seq (max_list ids)).

(** [INSERT INTO attendance (full_name, reg_no, date, time, status)
    VALUES (?, ?, ?, ?, ?)] *)
Definition insert_attendance (full_name reg_no date time status : string)
    (db : database) : database :=
  let id := next_rowid (attendance_seq db) (map a_id (attendance db)) in
  mk_db (students db) (students_seq db)
        (attendance db ++ [mk_attendance id full_name reg_no date time status])
        id.

(** The predicate of [WHERE full_name = ? AND date = ?]. *)
Definition same_name_date (full_name date : string) (r : attendance_row)
  : bool :=
  String.eqb (a_full_name r) full_name && String.eqb (a_date r) date.

(** [SELECT * FROM attendance WHERE full_name = ? AND date = ?] followed by
    [c.fetchone()]. *)
Definition fetch_attendance (full_name date : string) (db : database)
  : option attendance_row :=
  List.find (same_name_date full_name date) (attendance db).

(** [UPDATE attendance SET status = ? WHERE id = ?] *)
Definition update_status (new_status : string) (record_id : nat)
    (db : database) : database :=
  mk_db (students db) (students_seq db)
        (map (fun r => if Nat.eqb (a_id r) record_id
                       then mk_attendance (a_id r) (a_full_name r) (a_reg_no r)
                                          (a_date r) (a_time r) new_status
                       else r)
             (attendance db))
        (attendance_seq db).

(** [DELETE FROM attendance WHERE id = ?] *)
Definition delete_attendance (record_id : nat) (db : database) : database :=
  mk_db (students db) (students_seq db)
        (List.filter (fun r => negb (Nat.eqb (a_id r) record_id))
                     (attendance db))
        (attendance_seq db).

(** [UPDATE attendance SET full_name = ?, reg_no = ?, date = ?, time = ?,
    status = ? WHERE id = ?] *)
Definition update_attendance (full_name reg_no date time status : string)
    (record_id : nat) (db : database) : database :=
  mk_db (students db) (students_seq db)
        (map (fun r => if Nat.eqb (a_id r) record_id
                       then mk_attendance (a_id r) full_name reg_no date time
                                          status
                       else r)
             (attendance db))
        (attendance_seq db).

(** ** Capture Attendance: notification and [mark_attendance] *)

(** [EMAIL_SENDER] and [EMAIL_APP_PASSWORD] as [os.getenv] returns them. *)
Record email_config := mk_email_config {
  EMAIL_SENDER : option string;
  EMAIL_APP_PASSWORD : option string
}.

(** [not v] for a value that is [None] or a string. *)
Definition not_set (v : option string) : bool :=
  match v with
  | None => true
  | Some s => negb (PyStr.truthy s)
  end.

(** What the mail relay does with one message: the [with smtplib.SMTP]
    block runs to its end, or one of its calls raises. *)
Inductive smtp_outcome :=
| SmtpDelivered
| SmtpRaises (e : string).

(** The headers of the confirmation message (its body greets
    [full_name.title()]). *)
Record email_message := mk_email {
  msg_subject : string;
  msg_from : string;
  msg_to : string;
  msg_greets : string
}.

(** What the operator sees, and what leaves the process. *)
Inductive event :=
| ToastAttendanceMarked (full_name : string)
| WarningEmailNotConfigured
| SmtpSendMessage (m : email_message)
| SuccessEmailSent (to : string)
| ErrorFailedToSendEmail (e : string).

(** [send_attendance_email(full_name, reg_no)] *)
Definition send_attendance_email (cfg : email_config) (smtp : smtp_outcome)
    (full_name reg_no : string) : list event :=
  if not_set (EMAIL_SENDER cfg) || not_set (EMAIL_APP_PASSWORD cfg)
  then [WarningEmailNotConfigured]
  else
    let m := mk_email "Attendance Confirmation"
                      (default "" (EMAIL_SENDER cfg))
                      (reg_no ++ "@ses.yu.edu.jo")
                      full_name in
    match smtp with
    | SmtpDelivered => [SmtpSendMessage m; SuccessEmailSent (msg_to m)]
    | SmtpRaises e => [ErrorFailedToSendEmail e]
    end.

(** [mark_attendance(full_name, reg_no)]; [today] and [now] are what
    [date.today().isoformat()] and [datetime.now().strftime] return. *)
Definition mark_attendance (cfg : email_config) (smtp : smtp_outcome)
    (today now : string) (full_name reg_no : string) (db : database)
  : database * list event :=
  match fetch_attendance full_name today db with
  | Some _ => (db, [])
  | None =>
      (insert_attendance full_name reg_no today now "Present" db,
       ToastAttendanceMarked full_name
         :: send_attendance_email cfg smtp full_name reg_no)
  end.

(** [toggle_status(record_id, current_status)] *)
Definition toggle_status (record_id : nat) (current_status : string)
    (db : database) : database :=
  let new_status :=
    if String.eqb current_status "Present" then "Absent" else "Present" in
  update_status new_status record_id db.

(** ** Capture Attendance: today's report *)

(** Python compares strings by code point, as [String.leb] does. *)
Definition str_le (a b : string) : Prop := String.leb a b = true.

#[global] Instance str_le_dec (a b : string) : Decision (str_le a b).
Proof. unfold str_le. apply _. Defined.

(** [sorted(l)] on a list of strings. *)
Definition sorted (l : list string) : list string := merge_sort str_le l.

(** [get_registered_students()] *)
Definition get_registered_students (db : database) : list string :=
  sorted (map s_full_name (students db)).

(** [get_today_present()]: [SELECT DISTINCT full_name FROM attendance
    WHERE date = ? AND status = 'Present'], sorted. *)
Definition get_today_present (today : string) (db : database) : list string :=
  sorted (remove_dups
            (map a_full_name
                 (List.filter (fun r => String.eqb (a_date r) today
                                        && String.eqb (a_status r) "Present")
                              (attendance db)))).

(** [sorted(list(set(all_students) - set(present_today)))] *)
Definition absent_students (today : string) (db : database) : list string :=
  sorted (remove_dups (list_difference (get_registered_students db)
                                       (get_today_present today db))).

(** [SELECT reg_no FROM students WHERE full_name = ?], [fetchone], and the
    default ["UNKNOWN"]. *)
Definition reg_no_of (name : string) (db : database) : string :=
  match List.find (fun s => String.eqb (s_full_name s) name) (students db) with
  | Some s => s_reg_no s
  | None => "UNKNOWN"
  end.

(** The body of the loop [for name in absent_students]. *)
Definition synthesize_absent (today : string) (db : database) (name : string)
  : database :=
  match fetch_attendance name today db with
  | Some _ => db
  | None => insert_attendance name (reg_no_of name db) today "-" "Absent" db
  end.

(** The numbers the report shows: total, present and absent. *)
Record report := mk_report {
  rep_total : nat;
  rep_present : nat;
  rep_absent : nat
}.

(** The handler of the button "View Today's Attendance Report". *)
Definition todays_report (today : string) (db : database)
  : database * report :=
  let all_students := get_registered_students db in
  let present_today := get_today_present today db in
  let absent := absent_students today db in
  (foldl (synthesize_absent today) db absent,
   mk_report (List.length all_students) (List.length present_today)
             (List.length absent)).

(** ** Attendance Records: the Save Changes handler *)

(** A row of the data frame shown in the editor.  [v_id] is [None] for a
    row the operator added (pandas holds NaN there); [v_date] is the
    calendar date of the row as [str] prints it. *)
Record view_row := mk_view {
  v_id : option nat;
  v_date : string;
  v_full_name : string;
  v_reg_no : string;
  v_time : string;
  v_status : string
}.

(** The statements the handler sends to SQLite. *)
Inductive stmt :=
| Delete (id : nat)
| Insert (full_name reg_no date time status : string)
| Update (full_name reg_no date time status : string) (id : nat).

Definition exec_stmt (db : database) (s : stmt) : database :=
  match s with
  | Delete id => delete_attendance id db
  | Insert n r d t st => insert_attendance n r d t st db
  | Update n r d t st id => update_attendance n r d t st id db
  end.

Definition is_delete (s : stmt) : bool :=
  match s with Delete _ => true | _ => false end.
Definition is_insert (s : stmt) : bool :=
  match s with Insert _ _ _ _ _ => true | _ => false end.
Definition is_update (s : stmt) : bool :=
  match s with Update _ _ _ _ _ _ => true | _ => false end.

Definition count_stmt (p : stmt -> bool) (l : list stmt) : nat :=
  List.length (List.filter p l).

Section AttendanceRecords.

(** [str(pd.to_datetime(text).date())]: how pandas reads the stored text
    of a date and prints it again. *)
Variable parse_date : string -> string.

(** One row of [load_data()]. *)
Definition view_of (r : attendance_row) : view_row :=
  mk_view (Some (a_id r)) (parse_date (a_date r)) (a_full_name r)
          (a_reg_no r) (a_time r) (a_status r).

(** [load_data()] *)
Definition load_data (db : database) : list view_row :=
  map view_of (attendance db).

(** The statement for one row of [current.iterrows()]. *)
Definition row_stmt (row : view_row) : stmt :=
  match v_id row with
  | None => Insert (v_full_name row) (v_reg_no row) (v_date row)
                   (v_time row) (v_status row)
  | Some id => Update (v_full_name row) (v_reg_no row) (v_date row)
                      (v_time row) (v_status row) id
  end.

(** The statements of one save, in the order they are executed.  Python
    walks [deleted_ids] in the order of its set; deletions by different
    ids commute, so the list order of [ids_before] stands for it. *)
Definition save_statements (original_all filtered current : list view_row)
  : list stmt :=
  let original_visible :=
    List.filter (fun r => bool_decide (v_id r ∈ map v_id filtered))
                original_all in
  let ids_before := remove_dups (omap v_id original_visible) in
  let ids_after := omap v_id current in
  let deleted_ids := list_difference ids_before ids_after in
  map Delete deleted_ids ++ map row_stmt current.

Inductive save_outcome :=
| ChangesSaved
| PleaseConfirmSave
| NoChangesToSave.

(** The handler of the button "Save Changes". *)
Definition save_changes (data_changed confirm_save : bool)
    (original_all filtered current : list view_row) (db : database)
  : database * save_outcome :=
  if data_changed then
    if confirm_save then
      (foldl exec_stmt db (save_statements original_all filtered current),
       ChangesSaved)
    else (db, PleaseConfirmSave)
  else (db, NoChangesToSave).

End AttendanceRecords.

(** ** Files: the encodings and the dataset directories *)

(** A face embedding: the vector of numbers the library returns. *)
Definition encoding : Type := list Q.

(** A cropped face as written by [cv2.imwrite]. *)
Definition image : Type := string.

(** [encodings/<folder_name>.npy] holds a list of embeddings;
    [dataset/<folder_name>/<n>.jpg] holds the accepted face crops. *)
Record files := mk_files {
  encodings_dir : gmap string (list encoding);
  dataset_dir : gmap string (gmap nat image)
}.

(** ** Student Management: enrollment *)

(** What the page has in hand for one camera frame. *)
Record frame := mk_frame {
  f_ret : bool;                   (* [ret] of [cam.read()] *)
  f_faces : nat;                  (* [len(faces)] *)
  f_face : image;                 (* the crop of [faces[0]] *)
  f_laplacian_var : Q;            (* sharpness of the crop *)
  f_encoding : list encoding;     (* [face_recognition.face_encodings] *)
  f_esc : bool                    (* ESC pressed after the preview *)
}.

(** The counters and the list the capture loop maintains. *)
Record capture := mk_capture {
  total_attempts : nat;
  accepted : nat;
  rejected_blur : nat;
  rejected_encoding : nat;
  rejected_no_face : nat;
  encodings : list encoding;
  images : gmap nat image       (* files written into the student's folder *)
}.

Definition capture_start (folder : gmap nat image) : capture :=
  mk_capture 0 0 0 0 0 [] folder.

Definition Qltb (x y : Q) : bool := negb (Qle_bool y x).

(** One frame that was read: detection, blur test and embedding. *)
Definition capture_frame (f : frame) (c : capture) : capture :=
  let c := mk_capture (S (total_attempts c)) (accepted c) (rejected_blur c)
                      (rejected_encoding c) (rejected_no_face c)
                      (encodings c) (images c) in
  if Nat.eqb (f_faces f) 0 then
    mk_capture (total_attempts c) (accepted c) (rejected_blur c)
               (rejected_encoding c) (S (rejected_no_face c))
               (encodings c) (images c)
  else if Qltb (f_laplacian_var f) (100 # 1) then
    mk_capture (total_attempts c) (accepted c) (S (rejected_blur c))
               (rejected_encoding c) (rejected_no_face c)
               (encodings c) (images c)
  else
    match f_encoding f with
    | e :: _ =>
        mk_capture (total_attempts c) (S (accepted c)) (rejected_blur c)
                   (rejected_encoding c) (rejected_no_face c)
                   (encodings c ++ [e])
                   (<[S (accepted c) := f_face f]> (images c))
    | [] =>
        mk_capture (total_attempts c) (accepted c) (rejected_blur c)
                   (S (rejected_encoding c)) (rejected_no_face c)
                   (encodings c) (images c)
    end.

(** [while accepted < num_images_to_capture: ...] over the frames the
    camera delivers; the loop also ends when the feed does. *)
Fixpoint capture_loop (num_images_to_capture : nat) (feed : list frame)
    (c : capture) : capture :=
  if Nat.ltb (accepted c) num_images_to_capture then
    match feed with
    | [] => c
    | f :: feed' =>
        if f_ret f then
          let c' := capture_frame f c in
          if f_esc f then c' else capture_loop num_images_to_capture feed' c'
        else c
    end
  else c.

(** The form of the page and the session flag set by "Continue Anyway". *)
Record form := mk_form {
  student_name : string;
  registration_number_input : string;
  session_allow_capture : bool;
  num_images_to_capture : nat
}.

Definition registration_number (fm : form) : string :=
  PyStr.strip (registration_number_input fm).

(** [SELECT ... FROM students WHERE reg_no = ?] and [fetchone]. *)
Definition fetch_student (reg_no : string) (db : database)
  : option student_row :=
  List.find (fun s => String.eqb (s_reg_no s) reg_no) (students db).

(** [reg_exists] and [matched_existing_name]. *)
Definition reg_check (fm : form) (db : database) : bool * bool :=
  if PyStr.truthy (registration_number fm) && name_valid (student_name fm)
  then
    match fetch_student (registration_number fm) db with
    | Some row =>
        (true,
         String.eqb (PyStr.lower (PyStr.strip (s_full_name row)))
                    (PyStr.lower (PyStr.strip (student_name fm))))
    | None => (false, false)
    end
  else (false, false).

(** [allow_capture] *)
Definition allow_capture (fm : form) (db : database) : bool :=
  let '(reg_exists, matched_existing_name) := reg_check fm db in
  PyStr.truthy (student_name fm)
  && PyStr.truthy (registration_number fm)
  && name_valid (student_name fm)
  && (negb reg_exists
      || (reg_exists && matched_existing_name && session_allow_capture fm)).

(** [INSERT OR REPLACE INTO students (full_name, reg_no, folder_name,
    image_count, registration_date) VALUES (?, ?, ?, ?, ?)]: [reg_no] is
    UNIQUE, so a row with the same [reg_no] is deleted and the new row gets
    a fresh rowid. *)
Definition insert_or_replace_student
    (full_name reg_no folder_name : string) (image_count : nat)
    (registration_date : string) (db : database) : database :=
  let id := next_rowid (students_seq db) (map s_id (students db)) in
  mk_db (List.filter (fun s => negb (String.eqb (s_reg_no s) reg_no))
                     (students db)
         ++ [mk_student id full_name reg_no folder_name image_count
                        registration_date])
        id (attendance db) (attendance_seq db).

Inductive enroll_outcome :=
| EncodingsSaved (stats : capture)
| NoEncodingsCaptured
| RegUsedByAnotherStudent
| AlreadyRegistered
| NothingToDo.

(** What follows the capture loop: [if encodings: ... else: st.error]. *)
Definition save_enrollment (today : string) (fm : form) (c : capture)
    (db : database) (fs : files) : database * files * enroll_outcome :=
  let folder_name :=
    normalize_folder_name (student_name fm) (registration_number fm) in
  let fs := mk_files (encodings_dir fs)
                     (<[folder_name := images c]> (dataset_dir fs)) in
  match encodings c with
  | [] => (db, fs, NoEncodingsCaptured)
  | _ =>
      let all_encodings :=
        match encodings_dir fs !! folder_name with
        | Some old_encodings => old_encodings ++ encodings c
        | None => encodings c
        end in
      let previous_count :=
        match fetch_student (registration_number fm) db with
        | Some row => s_image_count row
        | None => 0%nat
        end in
      let total_count := (previous_count + accepted c)%nat in
      (insert_or_replace_student (PyStr.lower (PyStr.strip (student_name fm)))
                                 (registration_number fm) folder_name
                                 total_count today db,
       mk_files (<[folder_name := all_encodings]> (encodings_dir fs))
                (dataset_dir fs),
       EncodingsSaved c)
  end.

(** One run of the page with the capture button pressed where it is shown.
    [camera_opened] is [cam.isOpened()], [feed] the frames that follow. *)
Definition enroll (today : string) (fm : form) (camera_opened : bool)
    (feed : list frame) (db : database) (fs : files)
  : database * files * enroll_outcome :=
  if allow_capture fm db then
    let folder_name :=
      normalize_folder_name (student_name fm) (registration_number fm) in
    let folder := default ∅ (dataset_dir fs !! folder_name) in
    let c :=
      if camera_opened
      then capture_loop (num_images_to_capture fm) feed (capture_start folder)
      else capture_start folder in
    save_enrollment today fm c db fs
  else if name_valid (student_name fm)
          && PyStr.truthy (registration_number fm) then
    let '(reg_exists, matched_existing_name) := reg_check fm db in
    if reg_exists && negb matched_existing_name
    then (db, fs, RegUsedByAnotherStudent)
    else if reg_exists && matched_existing_name
            && negb (session_allow_capture fm)
    then (db, fs, AlreadyRegistered)
    else (db, fs, NothingToDo)
  else (db, fs, NothingToDo).

(** ** Capture Attendance: loading the encodings and recognizing a face *)

(** [load_known_faces()] over the [.npy] files of the directory, given as
    file stems with their contents in the order [os.listdir] returns them.
    [None] is the [ValueError] raised for a stem without underscore that
    holds at least one embedding. *)
Fixpoint load_file (name_with_reg : string) (encs : list encoding)
    (acc : list encoding * list string * gmap string string)
  : option (list encoding * list string * gmap string string) :=
  match encs with
  | [] => Some acc
  | enc :: encs' =>
      let '(known_encodings, known_names, reg_map) := acc in
      match decode_identifier name_with_reg with
      | Some (full_name, reg_no) =>
          load_file name_with_reg encs'
                    (known_encodings ++ [enc], known_names ++ [name_with_reg],
                     <[full_name := reg_no]> reg_map)
      | None => None
      end
  end.

Fixpoint load_known_faces_from (listing : list (string * list encoding))
    (acc : list encoding * list string * gmap string string)
  : option (list encoding * list string * gmap string string) :=
  match listing with
  | [] => Some acc
  | (name_with_reg, encs) :: listing' =>
      match load_file name_with_reg encs acc with
      | Some acc' => load_known_faces_from listing' acc'
      | None => None
      end
  end.

Definition load_known_faces (listing : list (string * list encoding))
  : option (list encoding * list string * gmap string string) :=
  load_known_faces_from listing ([], [], ∅).

(** The recognition threshold of the loop. *)
Definition threshold : Q := 4 # 10.

(** [np.argmin]: the index of the first smallest element; [None] is the
    [ValueError] numpy raises on an empty array. *)
Fixpoint argmin_from (best_index : nat) (best : Q) (i : nat) (ds : list Q)
  : nat :=
  match ds with
  | [] => best_index
  | d :: ds' =>
      if Qltb d best then argmin_from i d (S i) ds'
      else argmin_from best_index best (S i) ds'
  end.

Definition argmin (ds : list Q) : option nat :=
  match ds with
  | [] => None
  | d :: ds' => Some (argmin_from 0 d 1 ds')
  end.

(** The label of one detected face. *)
Inductive label :=
| Unknown
| Recognized (name_with_reg : string) (distance : Q).

Section Recognition.

(** The distance of the library between a known embedding and the
    embedding of the face in the frame. *)
Variable distance : encoding -> encoding -> Q.

(** [face_recognition.face_distance(known_encodings, face_encoding)] *)
Definition face_distance (known_encodings : list encoding)
    (face_encoding : encoding) : list Q :=
  map (fun k => distance k face_encoding) known_encodings.

(** The test of the loop body for one face; [None] when Python raises
    (no known embedding, or no name at the chosen index). *)
Definition classify (known_encodings : list encoding)
    (known_names : list string) (face_encoding : encoding)
  : option label :=
  let distances := face_distance known_encodings face_encoding in
  match argmin distances with
  | None => None
  | Some best_match_index =>
      match distances !! best_match_index with
      | None => None
      | Some d =>
          if Qltb d threshold then
            match known_names !! best_match_index with
            | Some name_with_reg => Some (Recognized name_with_reg d)
            | None => None
            end
          else Some Unknown
      end
  end.

End Recognition.

(** ** The write operations of the three pages *)

(** One operator action (or one recognition) that writes to the database. *)
Inductive write_op :=
| OpMarkAttendance (cfg : email_config) (smtp : smtp_outcome)
    (today now full_name reg_no : string)
| OpTodaysReport (today : string)
| OpToggleStatus (record_id : nat) (current_status : string)
| OpSaveChanges (original_all filtered current : list view_row)
| OpEnroll (today : string) (fm : form) (camera_opened : bool)
    (feed : list frame) (fs : files).

Definition apply_op (db : database) (op : write_op) : database :=
  match op with
  | OpMarkAttendance cfg smtp today now full_name reg_no =>
      (mark_attendance cfg smtp today now full_name reg_no db).1
  | OpTodaysReport today => (todays_report today db).1
  | OpToggleStatus record_id current_status =>
      toggle_status record_id current_status db
  | OpSaveChanges original_all filtered current =>
      (save_changes true true original_all filtered current db).1
  | OpEnroll today fm camera_opened feed fs =>
      (enroll today fm camera_opened feed db fs).1.1
  end.

(** The database after a sequence of operations. *)
Definition run (ops : list write_op) (db : database) : database :=
  foldl apply_op db ops.

Definition is_save (op : write_op) : bool :=
  match op with OpSaveChanges _ _ _ => true | _ => false end.

(** The records of one student on one date, and the Present ones. *)
Definition records_of (full_name date : string) (db : database)
  : list attendance_row :=
  List.filter (same_name_date full_name date) (attendance db).

Definition present_records_of (full_name date : string) (db : database)
  : list attendance_row :=
  List.filter (fun r => String.eqb (a_status r) "Present")
              (records_of full_name date db).

(** The students with a Present record on [today], as the claim counts
    them. *)
Definition has_present (today : string) (db : database) (s : student_row)
  : bool :=
  existsb (fun r => String.eqb (a_full_name r) (s_full_name s)
                    && String.eqb (a_date r) today
                    && String.eqb (a_status r) "Present")
          (attendance db).

(** The capture session of one enrollment. *)
Definition session (fm : form) (camera_opened : bool) (feed : list frame)
    (fs : files) : capture :=
  let folder_name :=
    normalize_folder_name (student_name fm) (registration_number fm) in
  let folder := default ∅ (dataset_dir fs !! folder_name) in
  if camera_opened
  then capture_loop (num_images_to_capture fm) feed (capture_start folder)
  else capture_start folder.

(** The invariant of the data model: at most one record per full name and
    date. *)
Definition unique_name_date (db : database) : Prop :=
  forall full_name date,
    (List.length (records_of full_name date db) <= 1)%nat.

(** The rows a synthesis adds. *)
Definition synthetic (today : string) (r : attendance_row) : Prop :=
  a_date r = today /\ a_time r = "-" /\ a_status r = "Absent".

(** Two facts the capture loop maintains: [accepted] counts the embeddings
    collected, and as long as nothing is accepted the student's image
    folder is as it was found. *)
Definition capture_ok (c : capture) : Prop :=
  accepted c = List.length (encodings c).

Definition capture_untouched (folder : gmap nat image) (c : capture) : Prop :=
  accepted c = 0%nat -> images c = folder.

(** The edit of one cell of the view: another status. *)
Definition with_status (new_status : string) (v : view_row) : view_row :=
  mk_view (v_id v) (v_date v) (v_full_name v) (v_reg_no v) (v_time v)
          new_status.

(** [r] is the only row of [rows] with its id. *)
Definition holds_alone (r : attendance_row) (rows : list attendance_row)
  : Prop :=
  forall r', r' ∈ rows -> a_id r' = a_id r -> r' = r.

(** ** Capture Attendance: the recognition loop *)

(** [s.rsplit(sep, 1)[0]]: the text before the last [sep], or all of [s]
    when [sep] does not occur. *)
Definition rsplit1_head (sep : ascii) (s : string) : string :=
  match PyStr.rsplit1 sep s with
  | Some (l, _) => l
  | None => s
  end.

(** One face seen by the camera, with what the clock and the mail relay
    give when its attendance is marked. *)
Record sighting := mk_sighting {
  sg_encoding : encoding;
  sg_today : string;
  sg_now : string;
  sg_smtp : smtp_outcome
}.

(** [st.session_state.recognized_names], the database and the events so
    far. *)
Record recognition := mk_recognition {
  recognized_names : list string;
  rec_db : database;
  rec_events : list event
}.

Inductive camera_outcome :=
| NoKnownEncodings
| CameraRaised
| CameraStopped (st : recognition).

Section RecognitionLoop.

(** [str.title], and the distance of the library. *)
Variable title : string -> string.
Variable distance : encoding -> encoding -> Q.

(** [name_with_reg.replace("_", " ").rsplit(" ", 1)[0].title()] *)
Definition display_name (name_with_reg : string) : string :=
  title (rsplit1_head " " (PyStr.replace "_" " " name_with_reg)).

(** The body of the loop over the faces of a frame; [None] when Python
    raises. *)
Definition recognize_face (cfg : email_config)
    (known_encodings : list encoding) (known_names : list string)
    (reg_map : gmap string string) (st : recognition) (sg : sighting)
  : option recognition :=
  match classify distance known_encodings known_names (sg_encoding sg) with
  | None => None
  | Some Unknown => Some st
  | Some (Recognized name_with_reg _) =>
      let name := display_name name_with_reg in
      if bool_decide (name ∈ recognized_names st) then Some st
      else
        let full_name := PyStr.lower name in
        let reg_no := default "UNKNOWN" (reg_map !! full_name) in
        let '(db, events) :=
          mark_attendance cfg (sg_smtp sg) (sg_today sg) (sg_now sg)
                          full_name reg_no (rec_db st) in
        Some (mk_recognition (recognized_names st ++ [name]) db
                             (rec_events st ++ events))
  end.

(** The faces of the frames read until the camera stops, in order. *)
Fixpoint recognize_all (cfg : email_config)
    (known_encodings : list encoding) (known_names : list string)
    (reg_map : gmap string string) (st : recognition)
    (sightings : list sighting) : option recognition :=
  match sightings with
  | [] => Some st
  | sg :: sightings' =>
      match recognize_face cfg known_encodings known_names reg_map st sg with
      | Some st' =>
          recognize_all cfg known_encodings known_names reg_map st' sightings'
      | None => None
      end
  end.

(** The handler of "Start Camera": load the encodings, refuse to start
    without any, and otherwise run the loop with an empty list of
    recognized names. *)
Definition start_camera (cfg : email_config)
    (listing : list (string * list encoding)) (sightings : list sighting)
    (db : database) : camera_outcome :=
  match load_known_faces listing with
  | None => CameraRaised
  | Some (known_encodings, known_names, reg_map) =>
      match known_encodings with
      | [] => NoKnownEncodings
      | _ =>
          match recognize_all cfg known_encodings known_names reg_map
                              (mk_recognition [] db []) sightings with
          | Some st => CameraStopped st
          | None => CameraRaised
          end
      end
  end.

End RecognitionLoop.

(** [str.title] on a string of ASCII characters: a letter that follows a
    letter is lowered, any other letter is raised, and the rest is kept. *)
Definition is_ascii_upper (c : ascii) : bool :=
  let n := nat_of_ascii c in ((65 <=? n) && (n <=? 90))%nat.

Definition is_ascii_lower (c : ascii) : bool :=
  let n := nat_of_ascii c in ((97 <=? n) && (n <=? 122))%nat.

Fixpoint title_ascii_from (previous_is_cased : bool) (s : string) : string :=
  match s with
  | EmptyString => EmptyString
  | String c s' =>
      if is_ascii_upper c then
        String (if previous_is_cased
                then ascii_of_nat (nat_of_ascii c + 32) else c)
               (title_ascii_from true s')
      else if is_ascii_lower c then
        String (if previous_is_cased
                then c else ascii_of_nat (nat_of_ascii c - 32))
               (title_ascii_from true s')
      else String c (title_ascii_from false s')
  end.

Definition title_ascii (s : string) : string := title_ascii_from false s.

(** ** Capture Attendance: the toggle buttons *)

(** [get_today_attendance()] *)
Definition get_today_attendance (today : string) (db : database)
  : list attendance_row :=
  List.filter (fun r => String.eqb (a_date r) today) (attendance db).

(** The button of the [i]-th row shown: [toggle_status(row['id'],
    row['status'])]. *)
Definition press_toggle (today : string) (i : nat) (db : database)
  : database :=
  match get_today_attendance today db !! i with
  | Some row => toggle_status (a_id row) (a_status row) db
  | None => db
  end.

(** What a stretch of the recognition loop may do to its state: the names
    it adds are new and distinct, the registry is kept, and the attendance
    table gets at most one Present record per added name, under the lowered
    name. *)
Definition session_grows (st st' : recognition) : Prop :=
  students (rec_db st') = students (rec_db st)
  /\ exists names new,
       recognized_names st' = recognized_names st ++ names
       /\ attendance (rec_db st') = attendance (rec_db st) ++ new
       /\ (List.length new <= List.length names)%nat
       /\ (NoDup (recognized_names st) -> NoDup names)
       /\ (forall n, n ∈ names -> n ∉ recognized_names st)
       /\ Forall (fun r => a_status r = "Present"
                           /\ exists name, name ∈ names
                                /\ a_full_name r = PyStr.lower name) new.

(** The counters of a capture session account for every attempt. *)
Definition counters_add_up (c : capture) : Prop :=
  total_attempts c
  = (accepted c + rejected_blur c + rejected_encoding c
     + rejected_no_face c)%nat.

(** How the image files of a session are numbered: the files above the
    accepted count (and a file 0) are those found in the folder, and each
    number from 1 to the count holds the crop of a frame of the feed. *)
Definition images_numbered (folder : gmap nat image) (feed : list frame)
    (c : capture) : Prop :=
  (forall i, i = 0%nat \/ (accepted c < i)%nat -> images c !! i = folder !! i)
  /\ (forall i, (1 <= i <= accepted c)%nat ->
        exists f, f ∈ feed /\ images c !! i = Some (f_face f)).

(** The keys of the two tables: attendance ids, student ids and
    registration numbers are pairwise distinct. *)
Definition keys_unique (db : database) : Prop :=
  NoDup (map a_id (attendance db))
  /\ NoDup (map s_id (students db))
  /\ NoDup (map s_reg_no (students db)).

(** ** Attendance Records: filters and summary *)

(** The three filters of the page.  [in_range] is the test of the chosen
    time range on a date ([Date >= today - timedelta(days=n)], or no test
    for "All Time"); [None] stands for the choice "All". *)
Definition apply_filters (in_range : string -> bool)
    (selected_date selected_name : option string) (df : list view_row)
  : list view_row :=
  let df := List.filter (fun v => in_range (v_date v)) df in
  let df :=
    match selected_date with
    | Some d => List.filter (fun v => String.eqb (v_date v) d) df
    | None => df
    end in
  match selected_name with
  | Some n => List.filter (fun v => String.eqb (v_full_name v) n) df
  | None => df
  end.

(** [filtered_df[filtered_df["Time"] != "-"]["Time"]] *)
Definition valid_times (df : list view_row) : list string :=
  map v_time (List.filter (fun v => negb (String.eqb (v_time v) "-")) df).

(** [min] and [max] of a non-empty series of strings. *)
Definition least_of (t : string) (ts : list string) : string :=
  foldl (fun m x => if String.leb m x then m else x) t ts.

Definition greatest_of (t : string) (ts : list string) : string :=
  foldl (fun m x => if String.leb x m then m else x) t ts.

(** The metrics of the summary (the average time is left out). *)
Record summary_metrics := mk_summary {
  sum_total_records : nat;
  sum_unique_students : nat;
  sum_earliest : string;
  sum_latest : string
}.

Definition summary (filtered_df : list view_row) : summary_metrics :=
  mk_summary
    (List.length filtered_df)
    (List.length (remove_dups (map v_full_name filtered_df)))
    (match valid_times filtered_df with
     | [] => "N/A"
     | t :: ts => least_of t ts
     end)
    (match valid_times filtered_df with
     | [] => "N/A"
     | t :: ts => greatest_of t ts
     end).

(** * Properties *)

(** ** Strings *)

Section StringFacts.

Import PyStr.

Ltac by_cases_on c :=
  destruct c as [[] [] [] [] [] [] [] []]; vm_compute; reflexivity.

Lemma lower_char_idem c : lower_char (lower_char c) = lower_char c.
Proof. by_cases_on c. Qed.

Lemma is_space_lower_char c : is_space (lower_char c) = is_space c.
Proof. by_cases_on c. Qed.

Lemma lower_char_underscore c :
  Ascii.eqb (lower_char c) "_" = Ascii.eqb c "_".
Proof. by_cases_on c. Qed.

Lemma lower_idem s : lower (lower s) = lower s.
Proof. induction s as [|c s IH]; simpl; [done|]. by rewrite lower_char_idem, IH. Qed.

Lemma lstrip_lower s : lstrip (lower s) = lower (lstrip s).
Proof.
  induction s as [|c s IH]; simpl; [done|].
  rewrite is_space_lower_char. by destruct (is_space c).
Qed.

Lemma lower_empty s : lower s = EmptyString <-> s = EmptyString.
Proof. by destruct s. Qed.

Lemma rstrip_lower s : rstrip (lower s) = lower (rstrip s).
Proof.
  induction s as [|c s IH]; simpl; [done|].
  rewrite IH, is_space_lower_char.
  destruct (rstrip s); simpl; [by destruct (is_space c)|done].
Qed.

Lemma strip_lower s : strip (lower s) = lower (strip s).
Proof. unfold strip. by rewrite lstrip_lower, rstrip_lower. Qed.

Lemma lstrip_starts_clean s : starts_clean (lstrip s).
Proof.
  induction s as [|c s IH]; simpl; [done|].
  destruct (is_space c) eqn:E; [done|]. simpl. done.
Qed.

Lemma lstrip_clean s : starts_clean s -> lstrip s = s.
Proof. destruct s; simpl; [done|]. by intros ->. Qed.

Lemma rstrip_starts_clean s : starts_clean s -> starts_clean (rstrip s).
Proof.
  destruct s as [|c s]; simpl; [done|]. intros E.
  destruct (rstrip s); simpl; [by rewrite E|done].
Qed.

Lemma rstrip_idem s : rstrip (rstrip s) = rstrip s.
Proof.
  induction s as [|c s IH]; simpl; [done|].
  destruct (rstrip s) as [|d t] eqn:E.
  - destruct (is_space c) eqn:Ec; simpl; [done|]. by rewrite Ec.
  - change (rstrip (String c (String d t))) with
      (match rstrip (String d t) with
       | EmptyString =>
           if is_space c then EmptyString else String c EmptyString
       | u => String c u
       end).
    by rewrite IH.
Qed.

Lemma strip_idem s : strip (strip s) = strip s.
Proof.
  unfold strip.
  rewrite (lstrip_clean (rstrip (lstrip s))).
  - apply rstrip_idem.
  - apply rstrip_starts_clean, lstrip_starts_clean.
Qed.

Lemma contains_lower s : contains "_" (lower s) = contains "_" s.
Proof.
  induction s as [|c s IH]; simpl; [done|].
  by rewrite lower_char_underscore, IH.
Qed.

Lemma contains_lstrip c s : contains c s = false -> contains c (lstrip s) = false.
Proof.
  induction s as [|a s IH]; simpl; [done|].
  intros [Ha Hs]%orb_false_elim.
  destruct (is_space a); [auto|]. simpl. by rewrite Ha, Hs.
Qed.

Lemma contains_rstrip c s : contains c s = false -> contains c (rstrip s) = false.
Proof.
  induction s as [|a s IH]; simpl; [done|].
  intros [Ha Hs]%orb_false_elim. specialize (IH Hs).
  destruct (rstrip s) as [|d t].
  - destruct (is_space a); simpl; [done|]. by rewrite Ha.
  - change (contains c (String a (String d t)))
      with (Ascii.eqb a c || contains c (String d t)).
    by rewrite Ha, IH.
Qed.

Lemma contains_strip c s : contains c s = false -> contains c (strip s) = false.
Proof. intros H. by apply contains_rstrip, contains_lstrip. Qed.

Lemma replace_back s :
  contains "_" s = false -> replace "_" " " (replace " " "_" s) = s.
Proof.
  induction s as [|c s IH]; simpl; [done|].
  intros [Hc Hs]%orb_false_elim. rewrite (IH Hs). f_equal.
  destruct (Ascii.eqb c " ") eqn:E.
  - apply Ascii.eqb_eq in E. by subst.
  - by rewrite Hc.
Qed.

Lemma rsplit1_absent sep s : contains sep s = false -> rsplit1 sep s = None.
Proof.
  induction s as [|c s IH]; simpl; [done|].
  intros [Hc Hs]%orb_false_elim. by rewrite (IH Hs), Hc.
Qed.

Lemma rsplit1_last sep l r :
  contains sep r = false ->
  rsplit1 sep (l ++ String sep r) = Some (l, r).
Proof.
  intros Hr. induction l as [|c l IH]; simpl.
  - by rewrite (rsplit1_absent _ _ Hr), Ascii.eqb_refl.
  - by rewrite IH.
Qed.

End StringFacts.

(** ** The enrollment identifier (C9) *)

(** C9, as the code has it: for a student name that passes the form's
    three-token check and contains no underscore, and a non-empty
    registration number without underscore, decoding the identifier built by
    [normalize_folder_name] the way [load_known_faces] does gives back the
    normalized full name and the normalized registration number. *)
Theorem decode_normalize_folder_name (name reg_no : string) :
  name_valid name = true ->
  reg_no <> EmptyString ->
  PyStr.contains "_" reg_no = false ->
  PyStr.contains "_" name = false ->
  decode_identifier (normalize_folder_name name reg_no)
  = Some (PyStr.lower (PyStr.strip name), PyStr.lower (PyStr.strip reg_no)).
Proof.
  intros _ _ Hreg Hname.
  unfold decode_identifier, normalize_folder_name.
  change ("_" ++ PyStr.lower (PyStr.strip reg_no))%string
    with (String "_" (PyStr.lower (PyStr.strip reg_no))).
  rewrite rsplit1_last.
  - rewrite replace_back.
    + by rewrite strip_lower, strip_idem, lower_idem.
    + rewrite contains_lower. by apply contains_strip.
  - rewrite contains_lower. by apply contains_strip.
Qed.

Lemma decode_normalize_folder_name_witness :
  decode_identifier (normalize_folder_name " Ahmad Mahmoud Kraiem" "20201001")
  = Some ("ahmad mahmoud kraiem", "20201001").
Proof.
  exact (decode_normalize_folder_name " Ahmad Mahmoud Kraiem" "20201001"
           eq_refl ltac:(discriminate) eq_refl eq_refl).
Defined.

(** C9 as stated fails for a name with an underscore inside a token: the
    name passes the three-token check, yet the decoded name has a space
    where the underscore was. *)
Lemma decode_normalize_underscore_name :
  name_valid "a_b c d" = true
  /\ "1" <> EmptyString
  /\ PyStr.contains "_" "1" = false
  /\ decode_identifier (normalize_folder_name "a_b c d" "1")
     = Some ("a b c d", "1")
  /\ decode_identifier (normalize_folder_name "a_b c d" "1")
     <> Some (PyStr.lower (PyStr.strip "a_b c d"), PyStr.lower (PyStr.strip "1")).
Proof. repeat split; [discriminate | discriminate]. Qed.

(** ** [mark_attendance] and the notification (C10, C8) *)

Lemma same_name_date_spec full_name date r :
  same_name_date full_name date r = true
  <-> a_full_name r = full_name /\ a_date r = date.
Proof.
  unfold same_name_date.
  rewrite andb_true_iff, !String.eqb_eq. done.
Qed.

Lemma fetch_attendance_none full_name date db :
  fetch_attendance full_name date db = None
  <-> forall r, r ∈ attendance db ->
                ~ (a_full_name r = full_name /\ a_date r = date).
Proof.
  unfold fetch_attendance. split.
  - intros Hnone r Hr%list_elem_of_In Hsame.
    apply (find_none _ _ Hnone) in Hr.
    apply same_name_date_spec in Hsame. congruence.
  - intros Hall.
    destruct (find _ _) as [r|] eqn:E; [|done].
    apply find_some in E as [Hr%list_elem_of_In Hsame].
    apply same_name_date_spec in Hsame. by destruct (Hall r Hr).
Qed.

(** C10: when the table holds any record of the student for today,
    whatever its status, [mark_attendance] returns the database as it was
    and produces no event: no toast, no message to the relay. *)
Theorem mark_attendance_existing_record
    (cfg : email_config) (smtp : smtp_outcome)
    (today now full_name reg_no : string) (db : database)
    (r : attendance_row) :
  r ∈ attendance db ->
  a_full_name r = full_name ->
  a_date r = today ->
  mark_attendance cfg smtp today now full_name reg_no db = (db, []).
Proof.
  intros Hr Hname Hdate. unfold mark_attendance.
  destruct (fetch_attendance full_name today db) eqn:E; [done|].
  rewrite fetch_attendance_none in E. by destruct (E r Hr).
Qed.

Lemma mark_attendance_existing_record_witness :
  let absent := mk_attendance 1 "ahmad mahmoud kraiem" "20201001"
                              "2024-05-01" "-" "Absent" in
  let db := mk_db [] 0 [absent] 1 in
  mark_attendance (mk_email_config (Some "a@b.c") (Some "pw")) SmtpDelivered
                  "2024-05-01" "09:00:00" "ahmad mahmoud kraiem" "20201001" db
  = (db, []).
Proof.
  intros absent db.
  apply (mark_attendance_existing_record _ _ _ _ _ _ db absent);
    [apply list_elem_of_here | reflexivity | reflexivity].
Defined.

(** C8: at the first recognition of a student on a day, the database
    written by [mark_attendance] is the same for every mail configuration
    and every behaviour of the relay, and it holds the Present record;
    without credentials the only event after the toast is the warning (no
    message is handed to the relay, no error is shown); when the relay
    raises, the error is shown and the database is still the one with the
    Present record. *)
Theorem mark_attendance_independent_of_notification
    (cfg : email_config) (smtp : smtp_outcome)
    (today now full_name reg_no : string) (db : database) :
  fetch_attendance full_name today db = None ->
  let db' := insert_attendance full_name reg_no today now "Present" db in
  (mark_attendance cfg smtp today now full_name reg_no db).1 = db'
  /\ (exists id,
        mk_attendance id full_name reg_no today now "Present"
        ∈ attendance db')
  /\ (not_set (EMAIL_SENDER cfg) || not_set (EMAIL_APP_PASSWORD cfg) = true ->
      (mark_attendance cfg smtp today now full_name reg_no db).2
      = [ToastAttendanceMarked full_name; WarningEmailNotConfigured])
  /\ (forall e,
        not_set (EMAIL_SENDER cfg) || not_set (EMAIL_APP_PASSWORD cfg) = false ->
        smtp = SmtpRaises e ->
        (mark_attendance cfg smtp today now full_name reg_no db).2
        = [ToastAttendanceMarked full_name; ErrorFailedToSendEmail e]).
Proof.
  intros Hnone db'. unfold mark_attendance. rewrite Hnone. simpl.
  split; [done|]. split.
  - eexists. unfold db', insert_attendance. simpl.
    apply elem_of_app. right. apply list_elem_of_here.
  - unfold send_attendance_email. split.
    + by intros ->.
    + intros e -> ->. done.
Qed.

Lemma mark_attendance_independent_of_notification_witness :
  (mark_attendance (mk_email_config None None) SmtpDelivered
                   "2024-05-01" "09:00:00" "ahmad mahmoud kraiem" "20201001"
                   empty_db).1
  = (mark_attendance (mk_email_config (Some "a@b.c") (Some "pw"))
                     (SmtpRaises "connection refused")
                     "2024-05-01" "09:00:00" "ahmad mahmoud kraiem" "20201001"
                     empty_db).1.
Proof.
  etransitivity.
  - exact (proj1 (mark_attendance_independent_of_notification
                    (mk_email_config None None) SmtpDelivered
                    "2024-05-01" "09:00:00" "ahmad mahmoud kraiem" "20201001"
                    empty_db eq_refl)).
  - reflexivity.
Defined.

(** ** One record per student and day (C2) *)

Section OneRecordPerDay.

Lemma records_of_insert n d full_name reg_no date time status db :
  records_of n d (insert_attendance full_name reg_no date time status db)
  = records_of n d db
    ++ List.filter (same_name_date n d)
         [mk_attendance
            (next_rowid (attendance_seq db) (map a_id (attendance db)))
            full_name reg_no date time status].
Proof. unfold records_of, insert_attendance. simpl. apply List.filter_app. Qed.

Lemma records_of_fetch_none n d db :
  fetch_attendance n d db = None -> records_of n d db = [].
Proof.
  unfold fetch_attendance, records_of.
  induction (attendance db) as [|r l IH]; simpl; [done|].
  destruct (same_name_date n d r); [done|]. exact IH.
Qed.

Lemma unique_insert full_name reg_no date time status db :
  fetch_attendance full_name date db = None ->
  unique_name_date db ->
  unique_name_date (insert_attendance full_name reg_no date time status db).
Proof.
  intros Hnone Hu n d. rewrite records_of_insert. simpl.
  destruct (same_name_date n d _) eqn:E.
  - apply same_name_date_spec in E as [<- <-]. simpl.
    by rewrite (records_of_fetch_none _ _ _ Hnone).
  - rewrite app_nil_r. apply Hu.
Qed.

Lemma filter_map_length {A} (p : A -> bool) (f : A -> A) (l : list A) :
  (forall x, p (f x) = p x) ->
  List.length (List.filter p (map f l)) = List.length (List.filter p l).
Proof.
  intros Hp. induction l as [|x l IH]; simpl; [done|].
  rewrite Hp. destruct (p x); simpl; by rewrite IH.
Qed.

Lemma unique_update_status new_status record_id db :
  unique_name_date db ->
  unique_name_date (update_status new_status record_id db).
Proof.
  intros Hu n d. unfold records_of, update_status. simpl.
  rewrite filter_map_length; [apply Hu|].
  intros r. by destruct (Nat.eqb (a_id r) record_id).
Qed.

Lemma unique_synthesize_absent today db name :
  unique_name_date db -> unique_name_date (synthesize_absent today db name).
Proof.
  intros Hu. unfold synthesize_absent.
  destruct (fetch_attendance name today db) eqn:E; [done|].
  by apply unique_insert.
Qed.

Lemma unique_todays_report today db :
  unique_name_date db -> unique_name_date (todays_report today db).1.
Proof.
  unfold todays_report. simpl.
  generalize (absent_students today db) as names. intros names.
  revert db. induction names as [|name names IH]; intros db Hu; simpl.
  - done.
  - apply IH. by apply unique_synthesize_absent.
Qed.

Lemma enroll_attendance today fm camera_opened feed db fs :
  attendance (enroll today fm camera_opened feed db fs).1.1 = attendance db.
Proof.
  unfold enroll, save_enrollment.
  repeat (match goal with
          | |- context [if ?b then _ else _] => destruct b
          | |- context [let '(_, _) := ?p in _] => destruct p
          | |- context [match encodings ?c with _ => _ end] =>
              destruct (encodings c)
          end; simpl); done.
Qed.

Lemma unique_apply_op db op :
  is_save op = false ->
  unique_name_date db -> unique_name_date (apply_op db op).
Proof.
  destruct op as [cfg smtp today now n r|today|id st| |today fm o feed fs];
    simpl; intros Hop Hu; try discriminate.
  - unfold mark_attendance.
    destruct (fetch_attendance n today db) eqn:E; simpl; [done|].
    by apply unique_insert.
  - by apply unique_todays_report.
  - by apply unique_update_status.
  - intros n d. unfold records_of. rewrite enroll_attendance. apply Hu.
Qed.

Lemma unique_run ops db :
  Forall (fun op => is_save op = false) ops ->
  unique_name_date db -> unique_name_date (run ops db).
Proof.
  unfold run. intros Hops. revert db.
  induction Hops as [|op ops Hop _ IH]; intros db Hu; simpl; [done|].
  apply IH. by apply unique_apply_op.
Qed.

End OneRecordPerDay.

(** C2, as the code has it: in every state reached from the empty database
    by recognitions ([mark_attendance]), today's reports, status toggles and
    enrollments, in any number and order, a full name has at most one
    attendance record per date, hence at most one Present record. *)
Theorem at_most_one_present_without_edits
    (ops : list write_op) (full_name date : string) :
  Forall (fun op => is_save op = false) ops ->
  (List.length (records_of full_name date (run ops empty_db)) <= 1)%nat
  /\ (List.length (present_records_of full_name date (run ops empty_db)) <= 1)%nat.
Proof.
  intros Hops.
  assert (Hu : unique_name_date (run ops empty_db)).
  { apply unique_run; [done|]. intros n d. simpl. lia. }
  split; [apply Hu|].
  unfold present_records_of.
  etransitivity; [apply List.filter_length_le|apply Hu].
Qed.

Lemma at_most_one_present_without_edits_witness :
  let cfg := mk_email_config None None in
  let ops := [OpMarkAttendance cfg SmtpDelivered "2024-05-01" "09:00:00"
                               "ahmad mahmoud kraiem" "20201001";
              OpMarkAttendance cfg SmtpDelivered "2024-05-01" "09:30:00"
                               "ahmad mahmoud kraiem" "20201001";
              OpToggleStatus 1 "Present";
              OpTodaysReport "2024-05-01";
              OpToggleStatus 1 "Absent"] in
  (List.length
     (present_records_of "ahmad mahmoud kraiem" "2024-05-01" (run ops empty_db))
   <= 1)%nat.
Proof.
  intros cfg ops.
  apply (at_most_one_present_without_edits ops).
  repeat constructor.
Defined.

(** C2 as stated fails through the editor: after one recognition the
    operator adds a row for the same student and date with status Present,
    and the save inserts it, so the table holds two Present records. *)
Lemma two_present_records_after_save :
  let cfg := mk_email_config None None in
  let seen := mk_view (Some 1) "2024-05-01" "ahmad mahmoud kraiem" "20201001"
                      "09:00:00" "Present" in
  let added := mk_view None "2024-05-01" "ahmad mahmoud kraiem" "20201001"
                       "09:05:00" "Present" in
  let ops := [OpMarkAttendance cfg SmtpDelivered "2024-05-01" "09:00:00"
                               "ahmad mahmoud kraiem" "20201001";
              OpSaveChanges [seen] [seen] [seen; added]] in
  load_data (fun d => d) (run (take 1 ops) empty_db) = [seen]
  /\ List.length
       (present_records_of "ahmad mahmoud kraiem" "2024-05-01"
                           (run ops empty_db)) = 2%nat.
Proof. split; reflexivity. Qed.

(** ** Today's report and the Absent records (C3) *)

Section TodaysReport.

Lemma fetch_attendance_some n d db :
  fetch_attendance n d db <> None
  <-> exists r, r ∈ attendance db /\ a_full_name r = n /\ a_date r = d.
Proof.
  split.
  - intros Hsome. unfold fetch_attendance in Hsome.
    destruct (find _ _) as [r|] eqn:E; [|done].
    apply find_some in E as [Hr%list_elem_of_In Hsame].
    apply same_name_date_spec in Hsame. eauto.
  - intros (r & Hr & Hn & Hd) Hnone.
    rewrite fetch_attendance_none in Hnone. by apply (Hnone r Hr).
Qed.

Lemma elem_of_sorted x l : x ∈ sorted l <-> x ∈ l.
Proof. unfold sorted. by rewrite merge_sort_Permutation. Qed.

Lemma length_sorted l : List.length (sorted l) = List.length l.
Proof. unfold sorted. by rewrite merge_sort_Permutation. Qed.

Lemma NoDup_sorted l : NoDup l -> NoDup (sorted l).
Proof. unfold sorted. by rewrite merge_sort_Permutation. Qed.

Lemma elem_of_today_present today db n :
  n ∈ get_today_present today db
  <-> exists r, r ∈ attendance db /\ a_full_name r = n
                /\ a_date r = today /\ a_status r = "Present".
Proof.
  unfold get_today_present.
  rewrite elem_of_sorted, elem_of_remove_dups, list_elem_of_In, in_map_iff.
  split.
  - intros (r & Hn & Hr). apply filter_In in Hr as [Hr Hp].
    apply andb_true_iff in Hp as [Hd Hs]. apply String.eqb_eq in Hd, Hs.
    exists r. by rewrite list_elem_of_In.
  - intros (r & Hr & Hn & Hd & Hs). exists r. split; [done|].
    apply filter_In. split; [by apply list_elem_of_In|].
    apply andb_true_iff. by rewrite !String.eqb_eq.
Qed.

Lemma has_present_spec today db s :
  has_present today db s = true
  <-> s_full_name s ∈ get_today_present today db.
Proof.
  rewrite elem_of_today_present. unfold has_present.
  rewrite existsb_exists. split.
  - intros (r & Hr & Hp).
    apply andb_true_iff in Hp as [[Hn Hd]%andb_true_iff Hs].
    apply String.eqb_eq in Hn, Hd, Hs.
    exists r. by rewrite list_elem_of_In.
  - intros (r & Hr & Hn & Hd & Hs). exists r.
    split; [by apply list_elem_of_In|].
    rewrite !andb_true_iff, !String.eqb_eq. done.
Qed.

Lemma elem_of_absent_students today db n :
  n ∈ absent_students today db
  <-> n ∈ map s_full_name (students db)
      /\ n ∉ get_today_present today db.
Proof.
  unfold absent_students, get_registered_students.
  by rewrite elem_of_sorted, elem_of_remove_dups, list_elem_of_difference,
    elem_of_sorted.
Qed.

Lemma NoDup_absent_students today db : NoDup (absent_students today db).
Proof. apply NoDup_sorted, NoDup_remove_dups. Qed.

Lemma NoDup_map_filter {A B} (f : A -> B) (p : A -> bool) (l : list A) :
  NoDup (map f l) -> NoDup (map f (List.filter p l)).
Proof.
  induction l as [|x l IH]; simpl; [done|].
  rewrite NoDup_cons. intros [Hx Hl].
  destruct (p x); simpl; [|by apply IH].
  apply NoDup_cons. split; [|by apply IH].
  intros Hin. apply Hx.
  apply list_elem_of_In, in_map_iff in Hin as (y & Hy & Hin).
  apply filter_In in Hin as [Hin _].
  apply list_elem_of_In, in_map_iff. eauto.
Qed.

Lemma length_filter_negb {A} (p : A -> bool) (l : list A) :
  List.length (List.filter (fun x => negb (p x)) l)
  = (List.length l - List.length (List.filter p l))%nat.
Proof.
  induction l as [|x l IH]; simpl; [done|].
  pose proof (List.filter_length_le p l).
  destruct (p x); simpl; lia.
Qed.

(** With distinct full names, the absent list has one name per student
    without a Present record. *)
Lemma length_absent_students today db :
  NoDup (map s_full_name (students db)) ->
  List.length (absent_students today db)
  = (List.length (students db)
     - List.length (List.filter (has_present today db) (students db)))%nat.
Proof.
  intros Hnd. rewrite <- length_filter_negb.
  rewrite <- (length_map s_full_name
                (List.filter (fun s => negb (has_present today db s)) _)).
  apply Permutation_length, NoDup_Permutation.
  - apply NoDup_absent_students.
  - by apply NoDup_map_filter.
  - intros n. rewrite elem_of_absent_students.
    rewrite !list_elem_of_In, !in_map_iff. split.
    + intros [(s & Hn & Hs) Hnp]. exists s. split; [done|].
      apply filter_In. split; [done|].
      apply negb_true_iff, not_true_is_false.
      rewrite has_present_spec, Hn, list_elem_of_In. done.
    + intros (s & Hn & Hs). apply filter_In in Hs as [Hs Hp].
      split; [eauto|].
      apply negb_true_iff, not_true_iff_false in Hp.
      by rewrite has_present_spec, Hn, list_elem_of_In in Hp.
Qed.

Lemma synthesize_fold today names db :
  exists new,
    attendance (foldl (synthesize_absent today) db names)
    = attendance db ++ new
    /\ students (foldl (synthesize_absent today) db names) = students db
    /\ Forall (synthetic today) new
    /\ (forall n, n ∈ names ->
          fetch_attendance n today
            (foldl (synthesize_absent today) db names) <> None)
    /\ (NoDup names ->
        (forall n, n ∈ names -> fetch_attendance n today db = None) ->
        List.length new = List.length names).
Proof.
  revert db. induction names as [|name names IH]; intros db; simpl.
  - exists []. rewrite app_nil_r. repeat split; try done.
    intros n Hn. by apply elem_of_nil in Hn.
  - destruct (IH (synthesize_absent today db name))
      as (new & Hatt & Hst & Hnew & Hfetch & Hlen).
    unfold synthesize_absent in *.
    destruct (fetch_attendance name today db) as [r0|] eqn:E.
    + exists new. repeat split; try done.
      * intros n [->|Hn]%elem_of_cons; [|by apply Hfetch].
        apply fetch_attendance_some.
        assert (Hs : fetch_attendance name today db <> None)
          by (by rewrite E).
        apply fetch_attendance_some in Hs as (r & Hr & Hrn & Hrd).
        exists r. rewrite Hatt, elem_of_app. auto.
      * intros _ Hnone. rewrite Hnone in E; [done|]. apply list_elem_of_here.
    + set (row := mk_attendance
                    (next_rowid (attendance_seq db)
                                (map a_id (attendance db)))
                    name (reg_no_of name db) today "-" "Absent") in *.
      exists (row :: new).
      rewrite Hatt. simpl. rewrite <- app_assoc. simpl.
      repeat split; try done.
      * by apply Forall_cons.
      * intros n [->|Hn]%elem_of_cons; [|by apply Hfetch].
        apply fetch_attendance_some. exists row.
        rewrite Hatt. simpl. rewrite <- app_assoc, !elem_of_app.
        split; [right; left; apply list_elem_of_here|done].
      * intros [Hname Hnd]%NoDup_cons Hnone. f_equal.
        apply Hlen; [done|]. intros n Hn.
        apply fetch_attendance_none. simpl.
        intros r [Hr| ->%list_elem_of_singleton]%elem_of_app.
        -- assert (Hn' : fetch_attendance n today db = None).
           { apply Hnone. by apply list_elem_of_further. }
           rewrite fetch_attendance_none in Hn'. by apply Hn'.
        -- simpl. intros [-> _]. done.
Qed.

Lemma synthesize_fold_noop today names db :
  (forall n, n ∈ names -> fetch_attendance n today db <> None) ->
  foldl (synthesize_absent today) db names = db.
Proof.
  induction names as [|name names IH]; simpl; [done|]. intros Hall.
  assert (Hname : synthesize_absent today db name = db).
  { unfold synthesize_absent.
    destruct (fetch_attendance name today db) eqn:E; [done|].
    destruct (Hall name); [apply list_elem_of_here|done]. }
  rewrite Hname. apply IH. intros n Hn. apply Hall.
  by apply list_elem_of_further.
Qed.

Lemma today_present_after_synthesis today db new db' :
  attendance db' = attendance db ++ new ->
  Forall (synthetic today) new ->
  get_today_present today db' = get_today_present today db.
Proof.
  intros Hatt Hnew. unfold get_today_present.
  rewrite Hatt, List.filter_app.
  assert (Hnil : List.filter
                   (fun r => String.eqb (a_date r) today
                             && String.eqb (a_status r) "Present") new = []).
  { clear Hatt. induction Hnew as [|r new (_ & _ & Hs) _ IH]; simpl; [done|].
    rewrite Hs. simpl. rewrite andb_false_r. exact IH. }
  by rewrite Hnil, app_nil_r.
Qed.

(** A second report for the same date writes nothing. *)
Lemma todays_report_again today db :
  (todays_report today (todays_report today db).1).1
  = (todays_report today db).1.
Proof.
  unfold todays_report. simpl.
  destruct (synthesize_fold today (absent_students today db) db)
    as (new & Hatt & Hst & Hnew & Hfetch & _).
  set (db1 := foldl (synthesize_absent today) db (absent_students today db))
    in *.
  assert (Habs : absent_students today db1 = absent_students today db).
  { unfold absent_students, get_registered_students.
    by rewrite Hst, (today_present_after_synthesis _ _ _ _ Hatt Hnew). }
  rewrite Habs. by apply synthesize_fold_noop.
Qed.

End TodaysReport.

(** C3, as the code has it: when the registered full names are pairwise
    distinct and every registered name with a record of today has a Present
    record of today, one report appends exactly S - P records, S being the number of
    registered students and P the number of them with a Present record of
    today; each appended record has today's date, the time ["-"] and the
    status Absent; and a second report for the same date leaves the
    database as the first one left it. *)
Theorem todays_report_absent_records (today : string) (db : database) :
  NoDup (map s_full_name (students db)) ->
  (forall r, r ∈ attendance db -> a_date r = today ->
             a_full_name r ∈ map s_full_name (students db) ->
             exists r', r' ∈ attendance db
                        /\ a_full_name r' = a_full_name r
                        /\ a_date r' = today /\ a_status r' = "Present") ->
  let db1 := (todays_report today db).1 in
  (exists new,
     attendance db1 = attendance db ++ new
     /\ List.length new
        = (List.length (students db)
           - List.length (List.filter (has_present today db) (students db)))%nat
     /\ Forall (synthetic today) new)
  /\ (todays_report today db1).1 = db1.
Proof.
  intros Hnd Hpresent db1. split; [|apply todays_report_again].
  unfold db1, todays_report. simpl.
  destruct (synthesize_fold today (absent_students today db) db)
    as (new & Hatt & _ & Hnew & _ & Hlen).
  exists new. split; [done|]. split; [|done].
  rewrite Hlen, length_absent_students; [done|done|apply NoDup_absent_students|].
  intros n [Hreg Habsent]%elem_of_absent_students.
  apply fetch_attendance_none. intros r Hr [Hn Hd].
  apply Habsent, elem_of_today_present.
  destruct (Hpresent r Hr Hd) as (r' & Hr' & Hn' & Hd' & Hs');
    [by rewrite Hn|].
  exists r'. split_and!; try done. by rewrite Hn'.
Qed.

Lemma todays_report_absent_records_witness :
  let today := "2024-05-01" in
  let db :=
    mk_db [mk_student 1 "ahmad mahmoud kraiem" "20201001"
                      "ahmad_mahmoud_kraiem_20201001" 5 "2024-04-01";
           mk_student 2 "omar ali hasan" "20201002"
                      "omar_ali_hasan_20201002" 5 "2024-04-01";
           mk_student 3 "lina sami odeh" "20201003"
                      "lina_sami_odeh_20201003" 5 "2024-04-02"]
          3
          [mk_attendance 1 "omar ali hasan" "20201002" "2024-05-01"
                         "09:00:00" "Present"]
          1 in
  let db1 := (todays_report today db).1 in
  (exists new,
     attendance db1 = attendance db ++ new
     /\ List.length new = 2%nat
     /\ Forall (synthetic today) new)
  /\ (todays_report today db1).1 = db1.
Proof.
  intros today db.
  apply (todays_report_absent_records today db).
  - apply (bool_decide_unpack _). vm_compute. exact I.
  - intros r Hr%list_elem_of_singleton _ _. subst r.
    eexists. split; [apply list_elem_of_here|done].
Defined.

(** C3 as stated fails in two ways.  Two students registered under the same
    full name (with different registration numbers) get one Absent record
    between them: S = 2, P = 0, one record inserted.  A student whose record
    of today is already Absent (after a toggle, say) gets none: S = 1,
    P = 0, no record inserted. *)
Lemma todays_report_not_S_minus_P :
  let today := "2024-05-01" in
  let namesakes :=
    mk_db [mk_student 1 "omar ali hasan" "20201002"
                      "omar_ali_hasan_20201002" 5 "2024-04-01";
           mk_student 2 "omar ali hasan" "20201009"
                      "omar_ali_hasan_20201009" 5 "2024-04-01"]
          2 [] 0 in
  let toggled :=
    mk_db [mk_student 1 "omar ali hasan" "20201002"
                      "omar_ali_hasan_20201002" 5 "2024-04-01"]
          1
          [mk_attendance 1 "omar ali hasan" "20201002" "2024-05-01"
                         "09:00:00" "Absent"]
          1 in
  (List.length (students namesakes) = 2%nat
   /\ List.length (List.filter (has_present today namesakes)
                               (students namesakes)) = 0%nat
   /\ attendance (todays_report today namesakes).1
      = [mk_attendance 1 "omar ali hasan" "20201002" "2024-05-01" "-" "Absent"])
  /\ (List.length (students toggled) = 1%nat
      /\ List.length (List.filter (has_present today toggled)
                                  (students toggled)) = 0%nat
      /\ attendance (todays_report today toggled).1 = attendance toggled).
Proof. vm_compute. repeat split. Qed.

(** ** Enrollment (C4, C5, C7) *)

Section Enrollment.

Lemma capture_frame_ok f c :
  capture_ok c -> capture_ok (capture_frame f c).
Proof.
  unfold capture_ok, capture_frame. intros Hc.
  destruct (Nat.eqb (f_faces f) 0); simpl; [done|].
  destruct (Qltb (f_laplacian_var f) (100 # 1)); simpl; [done|].
  destruct (f_encoding f) as [|e es]; simpl; [done|].
  rewrite length_app. simpl. lia.
Qed.

Lemma capture_loop_ok n feed c :
  capture_ok c -> capture_ok (capture_loop n feed c).
Proof.
  revert c. induction feed as [|f feed IH]; intros c Hc; simpl.
  - by destruct (Nat.ltb (accepted c) n).
  - destruct (Nat.ltb (accepted c) n); [|done].
    destruct (f_ret f); [|done].
    destruct (f_esc f); [by apply capture_frame_ok|].
    by apply IH, capture_frame_ok.
Qed.

Lemma capture_frame_untouched folder f c :
  capture_untouched folder c -> capture_untouched folder (capture_frame f c).
Proof.
  unfold capture_untouched, capture_frame. intros Hc.
  destruct (Nat.eqb (f_faces f) 0); simpl; [done|].
  destruct (Qltb (f_laplacian_var f) (100 # 1)); simpl; [done|].
  destruct (f_encoding f) as [|e es]; simpl; done.
Qed.

Lemma capture_loop_untouched folder n feed c :
  capture_untouched folder c ->
  capture_untouched folder (capture_loop n feed c).
Proof.
  revert c. induction feed as [|f feed IH]; intros c Hc; simpl.
  - by destruct (Nat.ltb (accepted c) n).
  - destruct (Nat.ltb (accepted c) n); [|done].
    destruct (f_ret f); [|done].
    destruct (f_esc f); [by apply capture_frame_untouched|].
    by apply IH, capture_frame_untouched.
Qed.

(** The counter [accepted] is the number of embeddings collected. *)
Lemma session_ok fm camera_opened feed fs :
  capture_ok (session fm camera_opened feed fs).
Proof.
  unfold session. destruct camera_opened; [|done].
  by apply capture_loop_ok.
Qed.

Lemma session_untouched fm camera_opened feed fs :
  capture_untouched
    (default ∅ (dataset_dir fs
                !! normalize_folder_name (student_name fm)
                                         (registration_number fm)))
    (session fm camera_opened feed fs).
Proof.
  unfold session. destruct camera_opened; [|done].
  by apply capture_loop_untouched.
Qed.

Lemma enroll_allowed today fm camera_opened feed db fs :
  allow_capture fm db = true ->
  enroll today fm camera_opened feed db fs
  = save_enrollment today fm (session fm camera_opened feed fs) db fs.
Proof. intros Ha. unfold enroll. by rewrite Ha. Qed.

Lemma allow_capture_registered fm db row :
  fetch_student (registration_number fm) db = Some row ->
  allow_capture fm db = true ->
  PyStr.lower (PyStr.strip (s_full_name row))
  = PyStr.lower (PyStr.strip (student_name fm))
  /\ session_allow_capture fm = true.
Proof.
  intros Hrow. unfold allow_capture, reg_check. rewrite Hrow.
  destruct (PyStr.truthy (registration_number fm)); simpl;
    [|by rewrite andb_false_r].
  destruct (name_valid (student_name fm)); simpl;
    [|by rewrite andb_false_r].
  rewrite andb_true_r.
  intros [_ [Hm Hs]%andb_true_iff]%andb_true_iff.
  by apply String.eqb_eq in Hm.
Qed.

Lemma fetch_student_replaced full_name reg_no folder_name n date db :
  fetch_student reg_no
    (insert_or_replace_student full_name reg_no folder_name n date db)
  = Some (mk_student (next_rowid (students_seq db) (map s_id (students db)))
                     full_name reg_no folder_name n date).
Proof.
  unfold fetch_student, insert_or_replace_student. simpl.
  generalize (next_rowid (students_seq db) (map s_id (students db))).
  intros id. induction (students db) as [|s l IH]; simpl.
  - by rewrite String.eqb_refl.
  - destruct (String.eqb (s_reg_no s) reg_no) eqn:E; simpl; [done|].
    by rewrite E.
Qed.

Lemma fetch_student_elem reg_no db row :
  fetch_student reg_no db = Some row ->
  row ∈ students db /\ s_reg_no row = reg_no.
Proof.
  unfold fetch_student.
  intros [Hin%list_elem_of_In Hr%String.eqb_eq]%find_some. done.
Qed.

Lemma max_list_map_le {A} (f : A -> nat) (x : A) (l : list A) :
  x ∈ l -> (f x <= max_list (map f l))%nat.
Proof.
  induction 1 as [x l|x y l _ IH]; simpl; lia.
Qed.

(** A registry row written by an enrollment names the folder built from its
    own name and number; a permitted re-enrollment writes to that folder. *)
Lemma folder_name_of_registered fm db row :
  fetch_student (registration_number fm) db = Some row ->
  allow_capture fm db = true ->
  s_folder_name row = normalize_folder_name (s_full_name row) (s_reg_no row) ->
  normalize_folder_name (student_name fm) (registration_number fm)
  = s_folder_name row.
Proof.
intros Hrow Hallow ->.
destruct (allow_capture_registered _ _ _ Hrow Hallow) as [Hname _].
apply fetch_student_elem in Hrow as [_ Hreg].
unfold normalize_folder_name. by rewrite Hname, Hreg.
Qed.

End Enrollment.

(** C4: a confirmed re-enrollment of a registered student whose session
    accepts k >= 1 frames leaves under the student's identifier the
    embeddings stored before followed by the k new ones, and a registry row
    whose image count is the previous count plus k. *)
Theorem re_enrollment_appends
    (today : string) (fm : form) (camera_opened : bool) (feed : list frame)
    (db : database) (fs : files) (row : student_row) :
  fetch_student (registration_number fm) db = Some row ->
  allow_capture fm db = true ->
  let c := session fm camera_opened feed fs in
  let k := accepted c in
  (1 <= k)%nat ->
  let folder_name :=
    normalize_folder_name (student_name fm) (registration_number fm) in
  let result := enroll today fm camera_opened feed db fs in
  List.length (encodings c) = k
  /\ encodings_dir result.1.2 !! folder_name
     = Some (default [] (encodings_dir fs !! folder_name) ++ encodings c)
  /\ exists row',
       fetch_student (registration_number fm) result.1.1 = Some row'
       /\ s_image_count row' = (s_image_count row + k)%nat.
Proof.
  intros Hrow Hallow c k Hk folder_name result.
  pose proof (session_ok fm camera_opened feed fs) as Hok.
  fold c in Hok. unfold capture_ok in Hok. fold k in Hok.
  split; [done|].
  unfold result. rewrite (enroll_allowed _ _ _ _ _ _ Hallow). fold c.
  unfold save_enrollment. fold folder_name.
  destruct (encodings c) as [|e es] eqn:E; [simpl in Hok; lia|].
  cbn [fst snd encodings_dir]. split.
  - rewrite lookup_insert_eq. by destruct (encodings_dir fs !! folder_name).
  - eexists. rewrite fetch_student_replaced. split; [done|].
    cbn [s_image_count]. by rewrite Hrow.
Qed.

Lemma re_enrollment_appends_witness :
  let fm := mk_form "Ahmad Mahmoud Kraiem" "20201001" true 1 in
  let row := mk_student 1 "ahmad mahmoud kraiem" "20201001"
                        "ahmad_mahmoud_kraiem_20201001" 5 "2024-04-01" in
  let db := mk_db [row] 1 [] 0 in
  let old := [[1 # 2]; [1 # 3]]%Q in
  let fs := mk_files {[ "ahmad_mahmoud_kraiem_20201001" := old ]} ∅ in
  let feed := [mk_frame true 1 "jpg" (150 # 1) [[1 # 4]%Q] false] in
  let result := enroll "2024-05-01" fm true feed db fs in
  encodings_dir result.1.2 !! "ahmad_mahmoud_kraiem_20201001"
  = Some (old ++ [[1 # 4]%Q])
  /\ exists row',
       fetch_student "20201001" result.1.1 = Some row'
       /\ s_image_count row' = 6%nat.
Proof.
  intros fm row db old fs feed result.
  refine (proj2 (re_enrollment_appends "2024-05-01" fm true feed db fs row
                   eq_refl eq_refl _)).
  vm_compute. lia.
Defined.

(** For a registration number that is in the registry, the page shows the
    capture button exactly when the form is complete, the name matches the
    registered one and the operator has confirmed. *)
Lemma allow_capture_registered_iff (fm : form) (db : database)
    (row : student_row) :
  fetch_student (registration_number fm) db = Some row ->
  allow_capture fm db = true
  <-> name_valid (student_name fm) = true
      /\ PyStr.truthy (registration_number fm) = true
      /\ PyStr.lower (PyStr.strip (s_full_name row))
         = PyStr.lower (PyStr.strip (student_name fm))
      /\ session_allow_capture fm = true.
Proof.
  intros Hrow. unfold allow_capture, reg_check, name_valid. rewrite Hrow.
  destruct (PyStr.truthy (registration_number fm)),
    (PyStr.truthy (student_name fm)),
    (List.length (PyStr.split (PyStr.strip (student_name fm))) =? 3)%nat,
    (session_allow_capture fm); simpl;
    rewrite ?andb_true_r, ?andb_false_r, ?String.eqb_eq;
    split; try done; by intros (? & ? & ? & ?).
Qed.

(** C5: an enrollment whose registration number is in the registry under a
    different name returns the database and the files as they were; and a
    permitted enrollment whose session accepts no frame leaves the database
    and the encodings directory as they were (of the files only the
    student's image folder is created, empty when it was not there) and
    reports that no encodings were captured. *)
Theorem enrollment_without_writes
    (today : string) (fm : form) (camera_opened : bool) (feed : list frame)
    (db : database) (fs : files) :
  (forall row,
      fetch_student (registration_number fm) db = Some row ->
      PyStr.lower (PyStr.strip (s_full_name row))
      <> PyStr.lower (PyStr.strip (student_name fm)) ->
      allow_capture fm db = false
      /\ enroll today fm camera_opened feed db fs
         = (db, fs,
            if name_valid (student_name fm)
               && PyStr.truthy (registration_number fm)
            then RegUsedByAnotherStudent else NothingToDo))
  /\ (allow_capture fm db = true ->
      accepted (session fm camera_opened feed fs) = 0%nat ->
      let folder_name :=
        normalize_folder_name (student_name fm) (registration_number fm) in
      let result := enroll today fm camera_opened feed db fs in
      result.1.1 = db
      /\ encodings_dir result.1.2 = encodings_dir fs
      /\ dataset_dir result.1.2
         = <[folder_name := default ∅ (dataset_dir fs !! folder_name)]>
             (dataset_dir fs)
      /\ result.2 = NoEncodingsCaptured).
Proof.
  split.
  - intros row Hrow Hdiff.
    assert (Hno : allow_capture fm db = false).
    { apply not_true_is_false. intros Ha.
      by destruct (allow_capture_registered _ _ _ Hrow Ha). }
    split; [done|].
    unfold enroll. rewrite Hno. unfold reg_check. rewrite Hrow.
    apply String.eqb_neq in Hdiff. rewrite Hdiff.
    destruct (name_valid (student_name fm)); simpl; [|done].
    by destruct (PyStr.truthy (registration_number fm)).
  - intros Hallow Hzero folder_name result.
    pose proof (session_ok fm camera_opened feed fs) as Hok.
    pose proof (session_untouched fm camera_opened feed fs Hzero) as Himg.
    unfold capture_ok in Hok. rewrite Hzero in Hok.
    unfold result. rewrite (enroll_allowed _ _ _ _ _ _ Hallow).
    unfold save_enrollment. fold folder_name. fold folder_name in Himg.
    destruct (encodings (session fm camera_opened feed fs)); [|done].
    simpl. by rewrite Himg.
Qed.

Lemma enrollment_without_writes_witness :
  let row := mk_student 1 "ahmad mahmoud kraiem" "20201001"
                        "ahmad_mahmoud_kraiem_20201001" 5 "2024-04-01" in
  let db := mk_db [row] 1 [] 0 in
  let fs := mk_files {[ "ahmad_mahmoud_kraiem_20201001" := [[1 # 2]%Q] ]} ∅ in
  let other := mk_form "Omar Ali Hasan" "20201001" true 5 in
  let fresh := mk_form "Omar Ali Hasan" "20201002" false 5 in
  let blurry := mk_frame true 1 "jpg" (20 # 1) [[1 # 4]%Q] true in
  enroll "2024-05-01" other true [blurry] db fs
  = (db, fs, RegUsedByAnotherStudent)
  /\ (enroll "2024-05-01" fresh true [blurry] db fs).1.1 = db
  /\ encodings_dir (enroll "2024-05-01" fresh true [blurry] db fs).1.2
     = encodings_dir fs
  /\ (enroll "2024-05-01" fresh true [blurry] db fs).2 = NoEncodingsCaptured.
Proof.
  intros row db fs other fresh blurry. split.
  - refine (proj2 (proj1 (enrollment_without_writes
                            "2024-05-01" other true [blurry] db fs)
                         row eq_refl _)).
    vm_compute. discriminate.
  - pose proof (proj2 (enrollment_without_writes
                         "2024-05-01" fresh true [blurry] db fs)
                      eq_refl eq_refl) as (H1 & H2 & _ & H4).
    exact (conj H1 (conj H2 H4)).
Defined.




(** ** Recognition: the nearest known embedding and the threshold (C1) *)

Section Nearest.

Lemma Qltb_true x y : Qltb x y = true <-> (x < y)%Q.
Proof.
  unfold Qltb. rewrite negb_true_iff, <- not_true_iff_false, Qle_bool_iff.
  split; [apply Qnot_le_lt|apply Qlt_not_le].
Qed.

Lemma Qltb_false x y : Qltb x y = false <-> (y <= x)%Q.
Proof.
  unfold Qltb. by rewrite negb_false_iff, Qle_bool_iff.
Qed.

Lemma argmin_from_spec ds : forall best_index best i,
  (argmin_from best_index best i ds = best_index
   /\ forall d, d ∈ ds -> (best <= d)%Q)
  \/ (exists k d,
        argmin_from best_index best i ds = (i + k)%nat
        /\ ds !! k = Some d
        /\ (d <= best)%Q
        /\ forall d', d' ∈ ds -> (d <= d')%Q).
Proof.
  induction ds as [|d ds IH]; intros best_index best i; simpl.
  - left. split; [done|]. intros d Hd. by apply elem_of_nil in Hd.
  - destruct (Qltb d best) eqn:E.
    + apply Qltb_true, Qlt_le_weak in E. right.
      destruct (IH i d (S i)) as [[Hr Hmin]|(k & d2 & Hr & Hk & Hle & Hmin)].
      * exists 0%nat, d. rewrite Hr. split_and!; [lia|done|done|].
        intros d' [->|Hd']%elem_of_cons; [apply Qle_refl|by apply Hmin].
      * exists (S k), d2. rewrite Hr. split_and!; [lia|done| |].
        -- by apply Qle_trans with d.
        -- intros d' [->|Hd']%elem_of_cons; [done|by apply Hmin].
    + apply Qltb_false in E.
      destruct (IH best_index best (S i))
        as [[Hr Hmin]|(k & d2 & Hr & Hk & Hle & Hmin)].
      * left. split; [done|].
        intros d' [->|Hd']%elem_of_cons; [done|by apply Hmin].
      * right. exists (S k), d2. rewrite Hr. split_and!; [lia|done|done|].
        intros d' [->|Hd']%elem_of_cons; [|by apply Hmin].
        by apply Qle_trans with best.
Qed.

(** [np.argmin] returns an index of a smallest element. *)
Lemma argmin_spec ds :
  ds <> [] ->
  exists i d,
    argmin ds = Some i /\ ds !! i = Some d
    /\ forall d', d' ∈ ds -> (d <= d')%Q.
Proof.
  destruct ds as [|d0 ds]; [done|]. intros _. simpl.
  destruct (argmin_from_spec ds 0 d0 1)
    as [[Hr Hmin]|(k & d & Hr & Hk & Hle & Hmin)].
  - exists 0%nat, d0. rewrite Hr. split_and!; [done|done|].
    intros d' [->|Hd']%elem_of_cons; [apply Qle_refl|by apply Hmin].
  - exists (S k), d. rewrite Hr. split_and!; [done|done|].
    intros d' [->|Hd']%elem_of_cons; [done|by apply Hmin].
Qed.

Lemma lookup_map {A B} (f : A -> B) (l : list A) (i : nat) :
  map f l !! i = f <$> (l !! i).
Proof.
  revert i. induction l as [|x l IH]; intros [|i]; simpl; done.
Qed.

(** The two lists [load_known_faces] returns run in parallel. *)
Lemma load_file_lengths name_with_reg encs : forall acc acc',
  load_file name_with_reg encs acc = Some acc' ->
  List.length acc.1.2 = List.length acc.1.1 ->
  List.length acc'.1.2 = List.length acc'.1.1.
Proof.
induction encs as [|enc encs IH]; intros [[es ns] m] acc'; simpl.
- by intros [= <-].
- destruct (decode_identifier name_with_reg) as [[full_name reg_no]|];
    [|done].
  intros Hload Hlen. apply (IH _ _ Hload). simpl in *.
  rewrite !length_app. simpl. lia.
Qed.

Lemma load_known_faces_lengths listing known_encodings known_names reg_map :
  load_known_faces listing = Some (known_encodings, known_names, reg_map) ->
  List.length known_names = List.length known_encodings.
Proof.
unfold load_known_faces.
assert (Hgen : forall acc acc',
  load_known_faces_from listing acc = Some acc' ->
  List.length acc.1.2 = List.length acc.1.1 ->
  List.length acc'.1.2 = List.length acc'.1.1).
{ induction listing as [|[name_with_reg encs] listing IH];
    intros acc acc'; simpl.
  - by intros [= <-].
  - destruct (load_file name_with_reg encs acc) as [acc1|] eqn:E; [|done].
    intros Hload Hlen. apply (IH _ _ Hload).
    by apply (load_file_lengths _ _ _ _ E). }
intros Hload. by apply (Hgen _ _ Hload).
Qed.

End Nearest.

(** C1: with at least one known embedding, and a name for each, the face
    has a nearest known embedding: one at index [i] whose distance [d] is
    the least of all.  When [d] is 0.4 or more the face is labelled
    Unknown; when [d] is below 0.4 it is labelled with the name stored at
    index [i], the name of that nearest embedding. *)
Theorem classify_by_threshold
    (distance : encoding -> encoding -> Q)
    (known_encodings : list encoding) (known_names : list string)
    (face_encoding : encoding) :
  known_encodings <> [] ->
  List.length known_names = List.length known_encodings ->
  exists i known name,
    known_encodings !! i = Some known
    /\ known_names !! i = Some name
    /\ (forall other, other ∈ known_encodings ->
          (distance known face_encoding <= distance other face_encoding)%Q)
    /\ ((threshold <= distance known face_encoding)%Q ->
        classify distance known_encodings known_names face_encoding
        = Some Unknown)
    /\ ((distance known face_encoding < threshold)%Q ->
        classify distance known_encodings known_names face_encoding
        = Some (Recognized name (distance known face_encoding))).
Proof.
  intros Hne Hlen.
  destruct (argmin_spec (face_distance distance known_encodings face_encoding))
    as (i & d & Harg & Hi & Hmin).
  { unfold face_distance. by destruct known_encodings. }
  unfold face_distance in Hi. rewrite lookup_map in Hi.
  destruct (known_encodings !! i) as [known|] eqn:Hknown; [|done].
  simpl in Hi. injection Hi as <-.
  assert (Hname : is_Some (known_names !! i)).
  { apply lookup_lt_is_Some. rewrite Hlen.
    by apply lookup_lt_is_Some; exists known. }
  destruct Hname as [name Hname].
  exists i, known, name. split; [done|]. split; [done|]. split.
  - intros other Hother%list_elem_of_In. apply Hmin.
    apply list_elem_of_In, in_map_iff. eauto.
  - unfold classify. rewrite Harg.
    unfold face_distance. rewrite lookup_map, Hknown. simpl. split.
    + intros Hge%Qltb_false. by rewrite Hge.
    + intros Hlt%Qltb_true. by rewrite Hlt, Hname.
Qed.

Lemma classify_by_threshold_witness :
  let distance := fun k e : encoding =>
    ((hd 0 k - hd 0 e) * (hd 0 k - hd 0 e))%Q in
  let known_encodings := [[9 # 10]; [1 # 10]; [7 # 10]]%Q in
  let known_names := ["omar_ali_hasan_20201002";
                      "ahmad_mahmoud_kraiem_20201001";
                      "lina_sami_odeh_20201003"] in
  exists i known name,
    known_encodings !! i = Some known
    /\ known_names !! i = Some name
    /\ (forall other, other ∈ known_encodings ->
          (distance known [0%Q] <= distance other [0%Q])%Q)
    /\ ((threshold <= distance known [0%Q])%Q ->
        classify distance known_encodings known_names [0%Q] = Some Unknown)
    /\ ((distance known [0%Q] < threshold)%Q ->
        classify distance known_encodings known_names [0%Q]
        = Some (Recognized name (distance known [0%Q]))).
Proof.
  intros distance known_encodings known_names.
  apply (classify_by_threshold distance known_encodings known_names [0%Q]);
    [discriminate|reflexivity].
Defined.

Example classify_nearest_below_threshold :
  classify (fun k e => ((hd 0 k - hd 0 e) * (hd 0 k - hd 0 e))%Q)
           [[9 # 10]; [1 # 10]; [7 # 10]]%Q
           ["omar_ali_hasan_20201002"; "ahmad_mahmoud_kraiem_20201001";
            "lina_sami_odeh_20201003"]
           [0%Q]
  = Some (Recognized "ahmad_mahmoud_kraiem_20201001"
                     (((1 # 10) - 0) * ((1 # 10) - 0))%Q).
Proof. reflexivity. Qed.

Example classify_all_far_is_unknown :
  classify (fun k e => ((hd 0 k - hd 0 e) * (hd 0 k - hd 0 e))%Q)
           [[9 # 10]; [7 # 10]]%Q
           ["omar_ali_hasan_20201002"; "lina_sami_odeh_20201003"]
           [0%Q]
  = Some Unknown.
Proof. reflexivity. Qed.

(** ** The Save Changes handler (C6) *)

Section SaveChanges.

Variable parse_date : string -> string.

Lemma holds_alone_in r rows :
  NoDup (map a_id rows) -> r ∈ rows -> holds_alone r rows.
Proof.
  induction rows as [|x rows IH]; simpl.
  - intros _ Hr. by apply elem_of_nil in Hr.
  - rewrite NoDup_cons. intros [Hx Hnd] Hr r' Hr' Hid.
    apply elem_of_cons in Hr as [->|Hr], Hr' as [->|Hr']; try done.
    + destruct Hx. rewrite <- Hid.
      apply list_elem_of_In, in_map, list_elem_of_In, Hr'.
    + destruct Hx. rewrite Hid.
      apply list_elem_of_In, in_map, list_elem_of_In, Hr.
    + by apply IH.
Qed.

Lemma holds_alone_filter r rows p :
  holds_alone r rows -> holds_alone r (List.filter p rows).
Proof.
  intros H r' [Hr' _]%list_elem_of_In%filter_In. apply H.
  by apply list_elem_of_In.
Qed.

Lemma holds_alone_map r rows f :
  (forall x, a_id (f x) = a_id x) ->
  (forall x, a_id x = a_id r -> f x = x) ->
  holds_alone r rows -> holds_alone r (map f rows).
Proof.
  intros Hid Hf H r' Hr' Hr'id.
  apply list_elem_of_In, in_map_iff in Hr' as (x & <- & Hx).
  rewrite Hid in Hr'id. rewrite (Hf x Hr'id).
  apply H; [by apply list_elem_of_In|done].
Qed.

(** Rewriting a row with its own values changes nothing. *)
Lemma update_own_values r db :
  parse_date (a_date r) = a_date r ->
  holds_alone r (attendance db) ->
  exec_stmt db (row_stmt (view_of parse_date r)) = db.
Proof.
  intros Hiso Halone. simpl. unfold update_attendance. rewrite Hiso.
  destruct db as [st sq rows aq]. simpl in *. f_equal.
  rewrite <- (map_id rows) at 2. apply map_ext_in.
  intros r' Hr'%list_elem_of_In.
  destruct (Nat.eqb (a_id r') (a_id r)) eqn:E; [|done].
  apply Nat.eqb_eq in E. rewrite (Halone r' Hr' E). by destruct r.
Qed.

(** Rewriting a row with a new status is the status update. *)
Lemma update_new_status new_status r db :
  parse_date (a_date r) = a_date r ->
  holds_alone r (attendance db) ->
  exec_stmt db (row_stmt (with_status new_status (view_of parse_date r)))
  = update_status new_status (a_id r) db.
Proof.
  intros Hiso Halone. simpl. unfold update_attendance, update_status.
  rewrite Hiso. f_equal. apply map_ext_in.
  intros r' Hr'%list_elem_of_In.
  destruct (Nat.eqb (a_id r') (a_id r)) eqn:E; [|done].
  apply Nat.eqb_eq in E. by rewrite (Halone r' Hr' E).
Qed.

Lemma singleton_list {A} (x : A) (l : list A) :
  NoDup l -> (forall y, y ∈ l <-> y = x) -> l = [x].
Proof.
  intros Hnd Hl. destruct l as [|a l].
  - pose proof (proj2 (Hl x) eq_refl) as Hx. by apply elem_of_nil in Hx.
  - assert (a = x) as -> by (apply Hl, list_elem_of_here).
    destruct l as [|b l]; [done|].
    apply NoDup_cons in Hnd as [Hx _].
    assert (b = x) as ->.
    { apply Hl. apply list_elem_of_further, list_elem_of_here. }
    destruct Hx. apply list_elem_of_here.
Qed.

Lemma elem_of_omap_v_id id (rows : list view_row) :
  id ∈ omap v_id rows <-> exists v, v ∈ rows /\ v_id v = Some id.
Proof. by rewrite list_elem_of_omap. Qed.

(** The ids the handler deletes in the scenario: just the one of the row
    that was removed from the view. *)
Lemma deleted_ids_scenario db filtered current r1 r2 r3 new_status :
  r1 ∈ attendance db ->
  NoDup [a_id r1; a_id r2; a_id r3] ->
  filtered ≡ₚ map (view_of parse_date) [r1; r2; r3] ->
  current ≡ₚ [with_status new_status (view_of parse_date r2);
              view_of parse_date r3] ->
  list_difference
    (remove_dups
       (omap v_id
          (List.filter (fun r => bool_decide (v_id r ∈ map v_id filtered))
                       (load_data parse_date db))))
    (omap v_id current)
  = [a_id r1].
Proof.
  intros Hr1 Hids Hf Hc. apply singleton_list.
  - apply NoDup_list_difference, NoDup_remove_dups.
  - intros id.
    rewrite list_elem_of_difference, elem_of_remove_dups, !elem_of_omap_v_id.
    assert (Hcur : forall v, v ∈ current
              <-> v = with_status new_status (view_of parse_date r2)
                  \/ v = view_of parse_date r3).
    { intros v. rewrite Hc, !elem_of_cons, elem_of_nil. tauto. }
    assert (Hfil : forall o, o ∈ map v_id filtered
              <-> o = Some (a_id r1) \/ o = Some (a_id r2)
                  \/ o = Some (a_id r3)).
    { intros o. change (map v_id filtered) with (v_id <$> filtered).
      rewrite Hf. simpl. rewrite !elem_of_cons, elem_of_nil. tauto. }
    apply NoDup_cons in Hids as [H1 Hids]. apply NoDup_cons in Hids as [H2 _].
    rewrite !elem_of_cons, elem_of_nil in H1.
    rewrite !elem_of_cons, elem_of_nil in H2.
    split.
    + intros [(v & Hv & Hid) Hnot].
      apply list_elem_of_In, filter_In in Hv as [_ Hv].
      apply bool_decide_eq_true, Hfil in Hv. rewrite Hid in Hv.
      destruct Hv as [[= ->]|[[= ->]|[= ->]]]; [done| |].
      * destruct Hnot. eexists. rewrite Hcur. split; [by left|done].
      * destruct Hnot. eexists. rewrite Hcur. split; [by right|done].
    + intros ->. split.
      * exists (view_of parse_date r1). split; [|done].
        apply list_elem_of_In, filter_In. split.
        -- unfold load_data. apply in_map. by apply list_elem_of_In.
        -- apply bool_decide_eq_true, Hfil. by left.
      * intros (v & [->| ->]%Hcur & [= Hid]); simpl in Hid;
          symmetry in Hid; tauto.
Qed.

End SaveChanges.

(** C6, as the code has it: the view shows three records; the operator
    removes the first, gives the second another status and leaves the
    third alone.  The save then sends one DELETE, two UPDATEs (one for each
    row still in the view, the untouched row being rewritten with its own
    values) and no INSERT.  The database afterwards is the one obtained by
    deleting the first record and setting the status of the second, so
    every other record, in the view or not, is as it was. *)
Theorem save_scenario_statements
    (parse_date : string -> string) (db : database)
    (filtered current : list view_row) (r1 r2 r3 : attendance_row)
    (new_status : string) :
  NoDup (map a_id (attendance db)) ->
  r1 ∈ attendance db -> r2 ∈ attendance db -> r3 ∈ attendance db ->
  NoDup [a_id r1; a_id r2; a_id r3] ->
  parse_date (a_date r2) = a_date r2 ->
  parse_date (a_date r3) = a_date r3 ->
  filtered ≡ₚ map (view_of parse_date) [r1; r2; r3] ->
  current ≡ₚ [with_status new_status (view_of parse_date r2);
              view_of parse_date r3] ->
  let stmts := save_statements (load_data parse_date db) filtered current in
  let db' := (save_changes true true (load_data parse_date db)
                           filtered current db).1 in
  count_stmt is_delete stmts = 1%nat
  /\ count_stmt is_update stmts = 2%nat
  /\ count_stmt is_insert stmts = 0%nat
  /\ db' = update_status new_status (a_id r2)
                         (delete_attendance (a_id r1) db)
  /\ forall r, r ∈ attendance db ->
               a_id r <> a_id r1 -> a_id r <> a_id r2 ->
               r ∈ attendance db'.
Proof.
  intros Hnd Hr1 Hr2 Hr3 Hids Hiso2 Hiso3 Hf Hc stmts db'.
  assert (Hstmts :
    stmts = Delete (a_id r1) :: map (row_stmt) current).
  { unfold stmts, save_statements.
    by rewrite (deleted_ids_scenario parse_date db filtered current r1 r2 r3
                  new_status Hr1 Hids Hf Hc). }
  assert (Hdb' : db' = update_status new_status (a_id r2)
                                     (delete_attendance (a_id r1) db)).
  { unfold db', save_changes. cbn [fst]. fold stmts. rewrite Hstmts.
    cbn [foldl exec_stmt].
    set (db1 := delete_attendance (a_id r1) db).
    assert (H2 : holds_alone r2 (attendance db1)).
    { apply holds_alone_filter. by apply holds_alone_in. }
    assert (H3 : holds_alone r3 (attendance db1)).
    { apply holds_alone_filter. by apply holds_alone_in. }
    apply NoDup_cons in Hids as [_ Hids]. apply NoDup_cons in Hids as [H23 _].
    rewrite elem_of_cons, elem_of_nil in H23.
    symmetry in Hc.
    apply Permutation_length_2_inv in Hc as [-> | ->]; cbn [map foldl].
    - rewrite (update_new_status parse_date new_status r2 db1 Hiso2 H2).
      apply update_own_values; [done|].
      apply holds_alone_map; [| |done].
      + intros x. by destruct (Nat.eqb (a_id x) (a_id r2)).
      + intros x Hx. destruct (Nat.eqb (a_id x) (a_id r2)) eqn:E; [|done].
        apply Nat.eqb_eq in E. destruct H23. left. congruence.
    - rewrite (update_own_values parse_date r3 db1 Hiso3 H3).
      by apply update_new_status. }
  assert (Hcount : count_stmt is_delete stmts = 1%nat
                   /\ count_stmt is_update stmts = 2%nat
                   /\ count_stmt is_insert stmts = 0%nat).
  { rewrite Hstmts. symmetry in Hc.
    by apply Permutation_length_2_inv in Hc as [-> | ->]. }
  destruct Hcount as (Hdel & Hupd & Hins).
  split_and!; try done.
  intros r Hr Hne1 Hne2. rewrite Hdb'. simpl.
  apply list_elem_of_In, in_map_iff. exists r. split.
  - apply Nat.eqb_neq in Hne2. by rewrite Hne2.
  - apply filter_In. split; [by apply list_elem_of_In|].
    apply Nat.eqb_neq in Hne1. by rewrite Hne1.
Qed.

Lemma save_scenario_statements_witness :
  let r1 := mk_attendance 1 "ahmad mahmoud kraiem" "20201001" "2024-05-01"
                          "09:00:00" "Present" in
  let r2 := mk_attendance 2 "omar ali hasan" "20201002" "2024-05-01"
                          "09:01:00" "Present" in
  let r3 := mk_attendance 3 "lina sami odeh" "20201003" "2024-05-01"
                          "-" "Absent" in
  let r4 := mk_attendance 4 "omar ali hasan" "20201002" "2024-04-30"
                          "09:07:00" "Present" in
  let db := mk_db [] 0 [r4; r1; r2; r3] 4 in
  let view := fun r => view_of (fun d => d) r in
  let filtered := [view r1; view r2; view r3] in
  let current := [with_status "Absent" (view r2); view r3] in
  let stmts := save_statements (load_data (fun d => d) db) filtered current in
  let db' := (save_changes true true (load_data (fun d => d) db)
                           filtered current db).1 in
  count_stmt is_delete stmts = 1%nat
  /\ count_stmt is_update stmts = 2%nat
  /\ count_stmt is_insert stmts = 0%nat
  /\ db' = update_status "Absent" 2 (delete_attendance 1 db)
  /\ forall r, r ∈ attendance db -> a_id r <> 1%nat -> a_id r <> 2%nat ->
               r ∈ attendance db'.
Proof.
  intros r1 r2 r3 r4 db view filtered current.
  apply (save_scenario_statements (fun d => d) db filtered current r1 r2 r3
           "Absent").
  - apply (bool_decide_unpack _). vm_compute. exact I.
  - apply list_elem_of_further, list_elem_of_here.
  - do 2 apply list_elem_of_further. apply list_elem_of_here.
  - do 3 apply list_elem_of_further. apply list_elem_of_here.
  - apply (bool_decide_unpack _). vm_compute. exact I.
  - reflexivity.
  - reflexivity.
  - reflexivity.
  - reflexivity.
Defined.

(** C6 as stated fails in the number of UPDATE statements: with three
    records in the view, one removed and one given another status, the
    save sends two UPDATEs, the second for the row that was left alone. *)
Lemma save_scenario_two_updates :
  let r1 := mk_attendance 1 "ahmad mahmoud kraiem" "20201001" "2024-05-01"
                          "09:00:00" "Present" in
  let r2 := mk_attendance 2 "omar ali hasan" "20201002" "2024-05-01"
                          "09:01:00" "Present" in
  let r3 := mk_attendance 3 "lina sami odeh" "20201003" "2024-05-01"
                          "-" "Absent" in
  let db := mk_db [] 0 [r1; r2; r3] 3 in
  let view := fun r => view_of (fun d => d) r in
  let filtered := load_data (fun d => d) db in
  let current := [with_status "Absent" (view r2); view r3] in
  save_statements (load_data (fun d => d) db) filtered current
  = [Delete 1;
     Update "omar ali hasan" "20201002" "2024-05-01" "09:01:00" "Absent" 2;
     Update "lina sami odeh" "20201003" "2024-05-01" "-" "Absent" 3]
  /\ count_stmt is_update
       (save_statements (load_data (fun d => d) db) filtered current)
     <> 1%nat.
Proof. split; [reflexivity|discriminate]. Qed.


(** * Further properties of the pages *)

(** ** The identifier and the loader *)

Lemma rsplit1_present sep s :
  PyStr.contains sep s = true -> PyStr.rsplit1 sep s <> None.
Proof.
induction s as [|c s IH]; simpl; [done|].
destruct (PyStr.rsplit1 sep s) as [[l r]|]; [done|].
destruct (Ascii.eqb c sep); [done|]. simpl. intros H. by destruct IH.
Qed.

Lemma rsplit1_none_iff sep s :
  PyStr.rsplit1 sep s = None <-> PyStr.contains sep s = false.
Proof.
split; [|apply rsplit1_absent].
intros Hnone. apply not_true_is_false. intros Hc.
by apply (rsplit1_present _ _ Hc).
Qed.

Lemma contains_append c a b :
  PyStr.contains c (a ++ b) = PyStr.contains c a || PyStr.contains c b.
Proof.
induction a as [|x a IH]; simpl; [done|]. by rewrite IH, orb_assoc.
Qed.

Lemma decode_identifier_none stem :
  decode_identifier stem = None <-> PyStr.contains "_" stem = false.
Proof.
unfold decode_identifier. rewrite <- rsplit1_none_iff.
by destruct (PyStr.rsplit1 "_" stem) as [[l r]|].
Qed.

(** X1: [load_known_faces] can decode every identifier that
    [normalize_folder_name] builds, whatever the name and the registration
    number are: the unpacking of [rsplit] never fails on it. *)
Theorem decode_normalize_never_fails (name reg_no : string) :
  exists full_name reg,
    decode_identifier (normalize_folder_name name reg_no)
    = Some (full_name, reg).
Proof.
destruct (decode_identifier (normalize_folder_name name reg_no))
  as [[full_name reg]|] eqn:E; [eauto|].
apply decode_identifier_none in E.
unfold normalize_folder_name in E.
rewrite contains_append in E. simpl in E. by rewrite orb_true_r in E.
Qed.

(** X2: when the registration number has no underscore, the decoded
    registration number is the normalized one for every name, also for a
    name with underscores, and the decoded name is the normalized name with
    its underscores turned into spaces. *)
Theorem decode_normalize_reg_no (name reg_no : string) :
  PyStr.contains "_" reg_no = false ->
  decode_identifier (normalize_folder_name name reg_no)
  = Some (PyStr.lower
            (PyStr.strip
               (PyStr.replace "_" " "
                  (PyStr.replace " " "_" (PyStr.lower (PyStr.strip name))))),
          PyStr.lower (PyStr.strip reg_no)).
Proof.
intros Hreg. unfold decode_identifier, normalize_folder_name.
change ("_" ++ PyStr.lower (PyStr.strip reg_no))%string
  with (String "_" (PyStr.lower (PyStr.strip reg_no))).
rewrite rsplit1_last; [done|].
rewrite contains_lower. by apply contains_strip.
Qed.

Lemma decode_normalize_reg_no_witness :
  decode_identifier (normalize_folder_name "Abu_Bakr Ali Hasan" " 2020A7 ")
  = Some ("abu bakr ali hasan", "2020a7").
Proof.
exact (decode_normalize_reg_no "Abu_Bakr Ali Hasan" " 2020A7 " eq_refl).
Defined.

Lemma load_file_decoded stem encs full_name reg_no :
  decode_identifier stem = Some (full_name, reg_no) ->
  forall known_encodings known_names reg_map,
    load_file stem encs (known_encodings, known_names, reg_map)
    = Some (known_encodings ++ encs,
            known_names ++ replicate (List.length encs) stem,
            match encs with
            | [] => reg_map
            | _ => <[full_name := reg_no]> reg_map
            end).
Proof.
intros Hdec. induction encs as [|enc encs IH]; intros es ns m; simpl.
- by rewrite !app_nil_r.
- rewrite Hdec, IH, <- !app_assoc. simpl. do 3 f_equal.
  destruct encs; [done|]. by rewrite insert_insert_eq.
Qed.

Lemma load_file_undecoded stem encs acc :
  decode_identifier stem = None ->
  load_file stem encs acc
  = match encs with [] => Some acc | _ => None end.
Proof.
intros Hdec. destruct encs as [|enc encs]; simpl; [done|].
destruct acc as [[es ns] m]. by rewrite Hdec.
Qed.

Lemma load_known_faces_from_app l1 l2 acc :
  load_known_faces_from (l1 ++ l2) acc
  = match load_known_faces_from l1 acc with
    | Some acc' => load_known_faces_from l2 acc'
    | None => None
    end.
Proof.
revert acc. induction l1 as [|[stem encs] l1 IH]; intros acc; simpl; [done|].
by destruct (load_file stem encs acc).
Qed.

Lemma load_known_faces_from_lists listing : forall acc acc',
  load_known_faces_from listing acc = Some acc' ->
  acc'.1.1 = acc.1.1 ++ List.concat (map snd listing)
  /\ acc'.1.2
     = acc.1.2
       ++ List.concat (map (fun f => replicate (List.length f.2) f.1) listing).
Proof.
induction listing as [|[stem encs] listing IH]; intros acc acc'; simpl.
- intros [= <-]. by rewrite !app_nil_r.
- destruct (load_file stem encs acc) as [acc1|] eqn:E; [|done].
  intros Hload. destruct (IH _ _ Hload) as [H1 H2].
  destruct acc as [[es ns] m].
  destruct (decode_identifier stem) as [[full_name reg_no]|] eqn:Hdec.
  + rewrite (load_file_decoded _ _ _ _ Hdec) in E. injection E as <-.
    simpl in *. by rewrite H1, H2, <- !app_assoc.
  + rewrite (load_file_undecoded _ _ _ Hdec) in E.
    destruct encs; [|done]. injection E as <-. by rewrite H1, H2.
Qed.

(** X3: when [load_known_faces] returns, the known embeddings are the
    embeddings of all files in directory order, and the known names give,
    position by position, the stem of the file each embedding came from; so
    the two lists have the same length. *)
Theorem load_known_faces_lists
    (listing : list (string * list encoding))
    (known_encodings : list encoding) (known_names : list string)
    (reg_map : gmap string string) :
  load_known_faces listing = Some (known_encodings, known_names, reg_map) ->
  known_encodings = List.concat (map snd listing)
  /\ known_names
     = List.concat (map (fun f => replicate (List.length f.2) f.1) listing)
  /\ List.length known_names = List.length known_encodings.
Proof.
intros Hload.
destruct (load_known_faces_from_lists _ _ _ Hload) as [H1 H2].
simpl in H1, H2. split; [done|]. split; [done|].
by apply (load_known_faces_lengths listing _ _ reg_map).
Qed.

Lemma load_known_faces_lists_witness :
  let listing := [("omar_ali_hasan_20201002", [[9 # 10]; [8 # 10]]%Q);
                  ("lina_sami_odeh_20201003", [[1 # 10]]%Q)] in
  let known_names := ["omar_ali_hasan_20201002"; "omar_ali_hasan_20201002";
                      "lina_sami_odeh_20201003"] in
  known_names
  = List.concat (map (fun f => replicate (List.length f.2) f.1) listing)
  /\ List.length known_names = 3%nat.
Proof.
intros listing known_names.
exact (proj2 (load_known_faces_lists listing
                [[9 # 10]; [8 # 10]; [1 # 10]]%Q known_names
                (<["lina sami odeh" := "20201003"]>
                   (<["omar ali hasan" := "20201002"]> ∅))
                eq_refl)).
Defined.

(** X4: [load_known_faces] raises exactly when some file that holds at
    least one embedding has a stem without underscore; a file without
    embeddings never makes it fail. *)
Theorem load_known_faces_raises_iff
    (listing : list (string * list encoding)) :
  load_known_faces listing = None
  <-> exists stem encs,
        (stem, encs) ∈ listing /\ encs <> []
        /\ PyStr.contains "_" stem = false.
Proof.
unfold load_known_faces. generalize (([], [], ∅) :
  list encoding * list string * gmap string string).
induction listing as [|[stem encs] listing IH]; intros acc; simpl.
- split; [done|]. intros (stem & encs & Hin & _). by apply elem_of_nil in Hin.
- destruct (decode_identifier stem) as [[full_name reg_no]|] eqn:Hdec.
  + destruct acc as [[es ns] m].
    rewrite (load_file_decoded _ _ _ _ Hdec), IH. split.
    * intros (s & e & Hin & He & Hs). exists s, e.
      split_and!; try done. by apply list_elem_of_further.
    * intros (s & e & [[= -> ->]|Hin]%elem_of_cons & He & Hs); [|eauto].
      apply decode_identifier_none in Hs. congruence.
  + rewrite (load_file_undecoded _ _ _ Hdec).
    apply decode_identifier_none in Hdec.
    destruct encs as [|enc encs].
    * rewrite IH. split.
      -- intros (s & e & Hin & He & Hs). exists s, e.
         split_and!; try done. by apply list_elem_of_further.
      -- intros (s & e & [[= -> ->]|Hin]%elem_of_cons & He & Hs); [done|eauto].
    * split; [|done]. intros _. exists stem, (enc :: encs).
      split_and!; [apply list_elem_of_here|done|done].
Qed.

(** X5: the registration number [reg_map] keeps for a full name is the one
    of the last file that decodes to this name: when the last file of the
    directory holds an embedding, its name maps to its number, whatever
    earlier files said. *)
Theorem reg_map_last_file_wins
    (listing : list (string * list encoding)) (stem : string)
    (encs : list encoding) (full_name reg_no : string)
    (known_encodings : list encoding) (known_names : list string)
    (reg_map : gmap string string) :
  encs <> [] ->
  decode_identifier stem = Some (full_name, reg_no) ->
  load_known_faces (listing ++ [(stem, encs)])
  = Some (known_encodings, known_names, reg_map) ->
  reg_map !! full_name = Some reg_no.
Proof.
intros Hne Hdec. unfold load_known_faces.
rewrite load_known_faces_from_app.
destruct (load_known_faces_from listing _) as [[[es ns] m]|]; [|done].
simpl. rewrite (load_file_decoded _ _ _ _ Hdec).
intros [= _ _ <-]. destruct encs; [done|]. apply lookup_insert_eq.
Qed.

Lemma reg_map_last_file_wins_witness :
  let reg_map : gmap string string := {[ "omar ali hasan" := "20201009" ]} in
  reg_map !! "omar ali hasan" = Some "20201009".
Proof.
intros reg_map.
exact (reg_map_last_file_wins
         [("omar_ali_hasan_20201002", [[9 # 10]%Q])]
         "omar_ali_hasan_20201009" [[1 # 10]%Q] "omar ali hasan" "20201009"
         [[9 # 10]; [1 # 10]]%Q
         ["omar_ali_hasan_20201002"; "omar_ali_hasan_20201009"] reg_map
         ltac:(discriminate) eq_refl eq_refl).
Defined.

(** ** The recognition loop *)

Lemma replace_absent a b s :
  PyStr.contains a s = false -> PyStr.replace a b s = s.
Proof.
induction s as [|c s IH]; simpl; [done|].
intros [Hc Hs]%orb_false_elim. by rewrite Hc, (IH Hs).
Qed.

Lemma replace_append a b s t :
  PyStr.replace a b (s ++ t) = (PyStr.replace a b s ++ PyStr.replace a b t)%string.
Proof. induction s as [|c s IH]; simpl; [done|]. by rewrite IH. Qed.

Lemma decode_normalize_clean name reg_no :
  PyStr.contains "_" name = false ->
  PyStr.contains "_" reg_no = false ->
  decode_identifier (normalize_folder_name name reg_no)
  = Some (PyStr.lower (PyStr.strip name), PyStr.lower (PyStr.strip reg_no)).
Proof.
intros Hname Hreg. unfold decode_identifier, normalize_folder_name.
change ("_" ++ PyStr.lower (PyStr.strip reg_no))%string
  with (String "_" (PyStr.lower (PyStr.strip reg_no))).
rewrite rsplit1_last; [|rewrite contains_lower; by apply contains_strip].
rewrite replace_back; [|rewrite contains_lower; by apply contains_strip].
by rewrite strip_lower, strip_idem, lower_idem.
Qed.

(** X6: for an identifier built from a name and a registration number
    without underscores, the number having no space either, the full name
    the loop passes to [reg_map.get] and to [mark_attendance] (the
    displayed name, lowered) is the key under which the loader stored the
    registration number.  The one fact used about [str.title] is that
    lowering the titled name gives the name back. *)
Theorem loop_name_is_loader_key
    (title : string -> string) (name reg_no : string) :
  PyStr.contains "_" name = false ->
  PyStr.contains "_" reg_no = false ->
  PyStr.contains " " (PyStr.lower (PyStr.strip reg_no)) = false ->
  PyStr.lower (title (PyStr.lower (PyStr.strip name)))
  = PyStr.lower (PyStr.strip name) ->
  decode_identifier (normalize_folder_name name reg_no)
  = Some (PyStr.lower
            (display_name title (normalize_folder_name name reg_no)),
          PyStr.lower (PyStr.strip reg_no)).
Proof.
intros Hname Hreg Hspace Htitle.
rewrite (decode_normalize_clean _ _ Hname Hreg). do 2 f_equal.
unfold display_name, normalize_folder_name.
change ("_" ++ PyStr.lower (PyStr.strip reg_no))%string
  with (String "_" (PyStr.lower (PyStr.strip reg_no))).
rewrite replace_append. simpl.
rewrite replace_back; [|rewrite contains_lower; by apply contains_strip].
rewrite (replace_absent "_" " " (PyStr.lower (PyStr.strip reg_no)));
  [|rewrite contains_lower; by apply contains_strip].
unfold rsplit1_head. by rewrite (rsplit1_last _ _ _ Hspace).
Qed.

Lemma loop_name_is_loader_key_witness :
  decode_identifier "ahmad_mahmoud_kraiem_20201001"
  = Some (PyStr.lower
            (display_name title_ascii "ahmad_mahmoud_kraiem_20201001"),
          "20201001").
Proof.
exact (loop_name_is_loader_key title_ascii " Ahmad Mahmoud Kraiem" "20201001"
         eq_refl eq_refl eq_refl eq_refl).
Defined.

Lemma mark_attendance_appends cfg smtp today now full_name reg_no db :
  students (mark_attendance cfg smtp today now full_name reg_no db).1
  = students db
  /\ exists new,
       attendance (mark_attendance cfg smtp today now full_name reg_no db).1
       = attendance db ++ new
       /\ (List.length new <= 1)%nat
       /\ Forall (fun r => a_full_name r = full_name /\ a_date r = today
                           /\ a_time r = now /\ a_status r = "Present") new.
Proof.
unfold mark_attendance.
destruct (fetch_attendance full_name today db); simpl.
- split; [done|]. exists []. rewrite app_nil_r.
  split_and!; [done|simpl; lia|done].
- split; [done|]. eexists. split_and!; [done|simpl; lia|].
  by apply Forall_singleton.
Qed.

Section Session.

Variable title : string -> string.
Variable distance : encoding -> encoding -> Q.
Variable cfg : email_config.
Variable known_encodings : list encoding.
Variable known_names : list string.
Variable reg_map : gmap string string.

Lemma session_grows_refl st : session_grows st st.
Proof.
split; [done|]. exists [], []. rewrite !app_nil_r.
split_and!; [done|done|done| | |done].
- intros _. apply NoDup_nil_2.
- intros n Hn. by apply elem_of_nil in Hn.
Qed.

Lemma recognize_face_kept st sg st' :
  recognize_face title distance cfg known_encodings known_names reg_map st sg
  = Some st' ->
  session_grows st st'.
Proof.
unfold recognize_face.
destruct (classify _ _ _ _) as [[|name_with_reg d]|]; [| |done].
- intros [= <-]. apply session_grows_refl.
- destruct (bool_decide _) eqn:Hin.
  + intros [= <-]. apply session_grows_refl.
  + apply bool_decide_eq_false in Hin.
    pose proof (mark_attendance_appends cfg (sg_smtp sg) (sg_today sg)
                  (sg_now sg)
                  (PyStr.lower (display_name title name_with_reg))
                  (default "UNKNOWN"
                     (reg_map !! PyStr.lower (display_name title name_with_reg)))
                  (rec_db st)) as (Hst & new & Hatt & Hlen & Hnew).
    destruct (mark_attendance _ _ _ _ _ _ _) as [db events].
    intros [= <-]. simpl in *. split; [done|].
    exists [display_name title name_with_reg], new.
    split_and!; [done|done|done| | |].
    * intros _. apply NoDup_singleton.
    * intros n Hn%list_elem_of_singleton. by subst.
    * eapply Forall_impl; [exact Hnew|]. intros r (Hn & _ & _ & Hs).
      split; [done|]. exists (display_name title name_with_reg).
      split; [apply list_elem_of_here|done].
Qed.

Lemma session_grows_trans st1 st2 st3 :
  session_grows st1 st2 -> session_grows st2 st3 -> session_grows st1 st3.
Proof.
intros (Hs1 & names1 & new1 & Hn1 & Ha1 & Hl1 & Hd1 & Hf1 & Hp1)
       (Hs2 & names2 & new2 & Hn2 & Ha2 & Hl2 & Hd2 & Hf2 & Hp2).
split; [congruence|].
exists (names1 ++ names2), (new1 ++ new2).
rewrite Hn2, Hn1, Ha2, Ha1, <- !app_assoc, !length_app.
split_and!; try done; [lia| | |].
- intros Hnd. apply NoDup_app. split_and!; [by apply Hd1| |].
  + intros n Hn1' Hn2'. apply (Hf2 n Hn2'). rewrite Hn1.
    apply elem_of_app. by right.
  + apply Hd2. rewrite Hn1. apply NoDup_app.
    split_and!; [done| |by apply Hd1].
    intros n Hn Hn'. by apply (Hf1 n Hn').
- intros n [Hn|Hn]%elem_of_app.
  + by apply Hf1.
  + intros Hin. apply (Hf2 n Hn). rewrite Hn1. apply elem_of_app. by left.
- apply Forall_app. split.
  + eapply Forall_impl; [exact Hp1|]. intros r [Hs (n & Hn & Hr)].
    split; [done|]. exists n. split; [|done]. apply elem_of_app. by left.
  + eapply Forall_impl; [exact Hp2|]. intros r [Hs (n & Hn & Hr)].
    split; [done|]. exists n. split; [|done]. apply elem_of_app. by right.
Qed.

Lemma recognize_all_kept sightings : forall st st',
  recognize_all title distance cfg known_encodings known_names reg_map
                st sightings = Some st' ->
  session_grows st st'.
Proof.
induction sightings as [|sg sightings IH]; intros st st'; simpl.
- intros [= <-]. apply session_grows_refl.
- destruct (recognize_face _ _ _ _ _ _ st sg) as [st1|] eqn:E; [|done].
  intros Hall. eapply session_grows_trans.
  + by apply (recognize_face_kept _ _ _ E).
  + by apply IH.
Qed.

End Session.

(** X7: when the camera session ends normally, the list of recognized
    names has no duplicates; the registry is as before; and the attendance
    table is the old one followed by Present records, at most one per
    recognized name, each under the lowered form of a recognized name. *)
Theorem camera_session_marks_once
    (title : string -> string) (distance : encoding -> encoding -> Q)
    (cfg : email_config) (listing : list (string * list encoding))
    (sightings : list sighting) (db : database) (st : recognition) :
  start_camera title distance cfg listing sightings db = CameraStopped st ->
  NoDup (recognized_names st)
  /\ students (rec_db st) = students db
  /\ exists new,
       attendance (rec_db st) = attendance db ++ new
       /\ (List.length new <= List.length (recognized_names st))%nat
       /\ Forall (fun r => a_status r = "Present"
                           /\ exists name, name ∈ recognized_names st
                                /\ a_full_name r = PyStr.lower name) new.
Proof.
unfold start_camera.
destruct (load_known_faces listing) as [[[es ns] m]|]; [|done].
destruct es as [|e es]; [done|].
destruct (recognize_all _ _ _ _ _ _ _ _) as [st1|] eqn:E; [|done].
intros [= <-].
apply recognize_all_kept in E
  as (Hs & names & new & Hn & Ha & Hl & Hd & _ & Hp).
simpl in *. rewrite Hn. split_and!; [apply Hd, NoDup_nil_2|done|].
exists new. split_and!; done.
Qed.

Lemma camera_session_marks_once_witness :
  let distance := fun k e : encoding =>
    ((hd 0 k - hd 0 e) * (hd 0 k - hd 0 e))%Q in
  let listing := [("omar_ali_hasan_20201002", [[9 # 10]%Q]);
                  ("ahmad_mahmoud_kraiem_20201001", [[1 # 10]%Q])] in
  let seen := mk_sighting [0%Q] "2024-05-01" "09:00:00" SmtpDelivered in
  let again := mk_sighting [0%Q] "2024-05-01" "09:00:05" SmtpDelivered in
  exists st,
    start_camera title_ascii distance (mk_email_config None None) listing
                 [seen; again] empty_db = CameraStopped st
    /\ recognized_names st = ["Ahmad Mahmoud Kraiem"]
    /\ NoDup (recognized_names st)
    /\ exists new,
         attendance (rec_db st) = attendance empty_db ++ new
         /\ (List.length new <= 1)%nat.
Proof.
intros distance listing seen again.
eexists. split; [reflexivity|]. split; [reflexivity|].
destruct (camera_session_marks_once title_ascii distance
            (mk_email_config None None) listing [seen; again] empty_db _
            eq_refl) as (Hd & _ & new & Ha & Hl & _).
split; [exact Hd|]. exists new. split; [exact Ha|exact Hl].
Defined.

(** ** Today's report, recognition and the toggle buttons *)

Lemma fetch_attendance_grows n d db db' more :
  attendance db' = attendance db ++ more ->
  fetch_attendance n d db' = None -> fetch_attendance n d db = None.
Proof.
intros Hatt. rewrite !fetch_attendance_none. intros H r Hr.
apply H. rewrite Hatt. apply elem_of_app. by left.
Qed.

Lemma reg_no_of_students name db db' :
  students db' = students db -> reg_no_of name db' = reg_no_of name db.
Proof. unfold reg_no_of. by intros ->. Qed.

Lemma reg_no_of_registered name db :
  name ∈ map s_full_name (students db) ->
  exists s, s ∈ students db /\ s_full_name s = name
            /\ s_reg_no s = reg_no_of name db.
Proof.
intros Hin. unfold reg_no_of.
destruct (find _ _) as [s|] eqn:E.
- apply find_some in E as [Hs Hn%String.eqb_eq]. exists s.
  by rewrite list_elem_of_In.
- apply list_elem_of_In, in_map_iff in Hin as (s & Hn & Hs).
  apply (find_none _ _ E) in Hs. simpl in Hs.
  apply String.eqb_neq in Hs. done.
Qed.

Lemma synthesize_fold_rows today names : forall db,
  exists new,
    attendance (foldl (synthesize_absent today) db names)
    = attendance db ++ new
    /\ (List.length new <= List.length names)%nat
    /\ Forall (fun r => a_full_name r ∈ names
                        /\ a_reg_no r = reg_no_of (a_full_name r) db
                        /\ synthetic today r) new
    /\ (forall n, n ∈ names -> fetch_attendance n today db = None ->
          exists r, r ∈ new /\ a_full_name r = n /\ synthetic today r).
Proof.
induction names as [|name names IH]; intros db; simpl.
- exists []. rewrite app_nil_r. split_and!; [done|done|done|].
  intros n Hn. by apply elem_of_nil in Hn.
- destruct (IH (synthesize_absent today db name))
    as (new & Hatt & Hlen & Hnew & Hall).
  unfold synthesize_absent in *.
  destruct (fetch_attendance name today db) as [r0|] eqn:E.
  + exists new. split_and!; [done|lia| |].
    * eapply Forall_impl; [exact Hnew|]. intros r (Hn & Hr & Hs).
      split_and!; [by apply list_elem_of_further|done|done].
    * intros n [->|Hn]%elem_of_cons Hnone; [congruence|by apply Hall].
  + set (row := mk_attendance
                  (next_rowid (attendance_seq db) (map a_id (attendance db)))
                  name (reg_no_of name db) today "-" "Absent") in *.
    exists (row :: new). rewrite Hatt. simpl. rewrite <- app_assoc. simpl.
    split_and!; [done|lia| |].
    * apply Forall_cons. split.
      -- split_and!; [apply list_elem_of_here|done|done].
      -- eapply Forall_impl; [exact Hnew|]. intros r (Hn & Hr & Hs).
         split_and!; [by apply list_elem_of_further|done|done].
    * intros n [->|Hn]%elem_of_cons Hnone.
      -- exists row. split_and!; [apply list_elem_of_here|done|done].
      -- destruct (decide (n = name)) as [->|Hne].
         ++ exists row. split_and!; [apply list_elem_of_here|done|done].
         ++ destruct (Hall n Hn) as (r & Hr & Hrn & Hrs).
            { apply fetch_attendance_none. simpl.
              intros r' [Hr'| ->%list_elem_of_singleton]%elem_of_app.
              - rewrite fetch_attendance_none in Hnone. by apply Hnone.
              - simpl. by intros [? _]. }
            exists r. split_and!; [by apply list_elem_of_further|done|done].
Qed.

Lemma absent_students_registered today db n :
  n ∈ absent_students today db -> n ∈ map s_full_name (students db).
Proof. by intros [H _]%elem_of_absent_students. Qed.

Lemma length_absent_students_le today db :
  (List.length (absent_students today db) <= List.length (students db))%nat.
Proof.
rewrite <- (length_map s_full_name (students db)).
apply submseteq_length, NoDup_submseteq; [apply NoDup_absent_students|].
intros n. apply absent_students_registered.
Qed.

(** X8: a report only appends to the attendance table and leaves the
    registry alone.  It appends at most one record per registered student;
    each has today's date, the time ["-"] and the status Absent, and bears
    the full name and the registration number of a row of the registry:
    the fallback ["UNKNOWN"] is never what decides the number. *)
Theorem todays_report_appends (today : string) (db : database) :
  students (todays_report today db).1 = students db
  /\ exists new,
       attendance (todays_report today db).1 = attendance db ++ new
       /\ (List.length new <= List.length (students db))%nat
       /\ Forall (fun r => synthetic today r
                           /\ exists s, s ∈ students db
                                /\ s_full_name s = a_full_name r
                                /\ s_reg_no s = a_reg_no r) new.
Proof.
unfold todays_report. simpl.
destruct (synthesize_fold today (absent_students today db) db)
  as (_ & _ & Hst & _).
split; [done|].
destruct (synthesize_fold_rows today (absent_students today db) db)
  as (new & Hatt & Hlen & Hnew & _).
exists new. split_and!; [done| |].
- pose proof (length_absent_students_le today db). lia.
- eapply Forall_impl; [exact Hnew|]. intros r (Hn & Hr & Hs).
  split; [done|]. apply absent_students_registered in Hn.
  destruct (reg_no_of_registered _ _ Hn) as (s & Hin & Hname & Hreg).
  exists s. split_and!; [done|done|congruence].
Qed.

(** X9: after a report every registered student has a record of today. *)
Theorem todays_report_completes_roll
    (today : string) (db : database) (s : student_row) :
  s ∈ students db ->
  fetch_attendance (s_full_name s) today (todays_report today db).1 <> None.
Proof.
intros Hs. unfold todays_report. simpl.
destruct (synthesize_fold today (absent_students today db) db)
  as (new & Hatt & _ & _ & Hfetch & _).
destruct (decide (s_full_name s ∈ get_today_present today db)) as [Hp|Hp].
- apply elem_of_today_present in Hp as (r & Hr & Hn & Hd & _).
  apply fetch_attendance_some. exists r. rewrite Hatt, elem_of_app. auto.
- apply Hfetch, elem_of_absent_students. split; [|done].
  apply list_elem_of_In, in_map, list_elem_of_In, Hs.
Qed.

Lemma todays_report_completes_roll_witness :
  let s := mk_student 1 "omar ali hasan" "20201002"
                      "omar_ali_hasan_20201002" 5 "2024-04-01" in
  let db := mk_db [s] 1 [] 0 in
  fetch_attendance "omar ali hasan" "2024-05-01"
                   (todays_report "2024-05-01" db).1 <> None.
Proof.
intros s db.
apply (todays_report_completes_roll "2024-05-01" db s).
apply list_elem_of_here.
Defined.

(** X10: a registered student without any record of today whom the report
    has marked Absent stays Absent when recognized later that day:
    [mark_attendance] finds the Absent record and does nothing. *)
Theorem recognition_after_report_is_ignored
    (cfg : email_config) (smtp : smtp_outcome)
    (today now full_name reg_no : string) (db : database) :
  full_name ∈ map s_full_name (students db) ->
  fetch_attendance full_name today db = None ->
  let db1 := (todays_report today db).1 in
  mark_attendance cfg smtp today now full_name reg_no db1 = (db1, [])
  /\ exists r, r ∈ attendance db1 /\ a_full_name r = full_name
               /\ a_date r = today /\ a_time r = "-"
               /\ a_status r = "Absent".
Proof.
intros Hreg Hnone db1.
assert (Habs : full_name ∈ absent_students today db).
{ apply elem_of_absent_students. split; [done|].
  intros (r & Hr & Hn & Hd & _)%elem_of_today_present.
  rewrite fetch_attendance_none in Hnone. by apply (Hnone r Hr). }
unfold db1, todays_report. simpl.
destruct (synthesize_fold_rows today (absent_students today db) db)
  as (new & Hatt & _ & _ & Hall).
destruct (Hall full_name Habs Hnone) as (r & Hr & Hn & Hd & Ht & Hs).
assert (Hin : r ∈ attendance
                    (foldl (synthesize_absent today) db
                           (absent_students today db))).
{ rewrite Hatt. apply elem_of_app. by right. }
split; [|by exists r].
set (dbf := foldl (synthesize_absent today) db (absent_students today db))
  in *.
unfold mark_attendance.
destruct (fetch_attendance full_name today dbf) eqn:E; [done|].
rewrite fetch_attendance_none in E. by destruct (E r Hin).
Qed.

Lemma recognition_after_report_is_ignored_witness :
  let s := mk_student 1 "omar ali hasan" "20201002"
                      "omar_ali_hasan_20201002" 5 "2024-04-01" in
  let db := mk_db [s] 1 [] 0 in
  let db1 := (todays_report "2024-05-01" db).1 in
  mark_attendance (mk_email_config None None) SmtpDelivered "2024-05-01"
                  "09:00:00" "omar ali hasan" "20201002" db1 = (db1, []).
Proof.
intros s db db1.
refine (proj1 (recognition_after_report_is_ignored
                 (mk_email_config None None) SmtpDelivered "2024-05-01"
                 "09:00:00" "omar ali hasan" "20201002" db _ eq_refl)).
apply list_elem_of_here.
Defined.

(** X11: a second [mark_attendance] for the same full name on the same day
    does nothing, whatever time, registration number, mail configuration
    and relay behaviour it comes with. *)
Theorem mark_attendance_twice
    (cfg cfg' : email_config) (smtp smtp' : smtp_outcome)
    (today now now' full_name reg_no reg_no' : string) (db : database) :
  let db1 := (mark_attendance cfg smtp today now full_name reg_no db).1 in
  mark_attendance cfg' smtp' today now' full_name reg_no' db1 = (db1, []).
Proof.
intros db1.
assert (Hsome : fetch_attendance full_name today db1 <> None).
{ unfold db1, mark_attendance.
  destruct (fetch_attendance full_name today db) eqn:E; simpl.
  - by rewrite E.
  - apply fetch_attendance_some. eexists. split.
    + apply elem_of_app. right. apply list_elem_of_here.
    + done. }
unfold mark_attendance at 1.
by destruct (fetch_attendance full_name today db1).
Qed.



Lemma NoDup_today_present today db : NoDup (get_today_present today db).
Proof. apply NoDup_sorted, NoDup_remove_dups. Qed.

(** X13: when the registered full names are pairwise distinct and every
    Present record of today bears a registered name, the three numbers of
    the report add up: total = present + absent. *)
Theorem todays_report_numbers_add_up (today : string) (db : database) :
  NoDup (map s_full_name (students db)) ->
  (forall r, r ∈ attendance db -> a_date r = today ->
             a_status r = "Present" ->
             a_full_name r ∈ map s_full_name (students db)) ->
  rep_total (todays_report today db).2
  = (rep_present (todays_report today db).2
     + rep_absent (todays_report today db).2)%nat.
Proof.
intros Hnd Hreg. unfold todays_report. simpl.
unfold get_registered_students.
rewrite length_sorted, <- length_app.
apply Permutation_length, NoDup_Permutation; [done| |].
- apply NoDup_app. split_and!.
  + apply NoDup_today_present.
  + by intros n Hp [_ Hnp]%elem_of_absent_students.
  + apply NoDup_absent_students.
- intros n. rewrite elem_of_app, elem_of_absent_students. split.
  + intros Hn.
    destruct (decide (n ∈ get_today_present today db)); [by left|by right].
  + intros [Hp|[Hn _]]; [|done].
    apply elem_of_today_present in Hp as (r & Hr & <- & Hd & Hs).
    by apply Hreg.
Qed.

Lemma todays_report_numbers_add_up_witness :
  let db :=
    mk_db [mk_student 1 "ahmad mahmoud kraiem" "20201001"
                      "ahmad_mahmoud_kraiem_20201001" 5 "2024-04-01";
           mk_student 2 "omar ali hasan" "20201002"
                      "omar_ali_hasan_20201002" 5 "2024-04-01"]
          2
          [mk_attendance 1 "omar ali hasan" "20201002" "2024-05-01"
                         "09:00:00" "Present"]
          1 in
  rep_total (todays_report "2024-05-01" db).2
  = (rep_present (todays_report "2024-05-01" db).2
     + rep_absent (todays_report "2024-05-01" db).2)%nat.
Proof.
intros db. apply (todays_report_numbers_add_up "2024-05-01" db).
- apply (bool_decide_unpack _). vm_compute. exact I.
- intros r Hr%list_elem_of_singleton _ _. subst r.
  apply list_elem_of_further, list_elem_of_here.
Defined.

Lemma filter_map_commute {A} (p : A -> bool) (f : A -> A) (l : list A) :
  (forall x, p (f x) = p x) ->
  List.filter p (map f l) = map f (List.filter p l).
Proof.
intros Hp. induction l as [|x l IH]; simpl; [done|].
rewrite Hp. destruct (p x); simpl; by rewrite IH.
Qed.

(** X14: a toggle button changes nothing but statuses: the table keeps
    its rows in their order with their id, full name, registration number,
    date and time (a synthesized record toggled to Present keeps the time
    ["-"]), every row with another id is exactly as before, and the
    registry is untouched. *)
Theorem toggle_status_only_status
    (record_id : nat) (current_status : string) (db : database) :
  let db' := toggle_status record_id current_status db in
  students db' = students db
  /\ map (fun r => (a_id r, a_full_name r, a_reg_no r, a_date r, a_time r))
         (attendance db')
     = map (fun r => (a_id r, a_full_name r, a_reg_no r, a_date r, a_time r))
           (attendance db)
  /\ forall i r, attendance db !! i = Some r -> a_id r <> record_id ->
                 attendance db' !! i = Some r.
Proof.
intros db'. unfold db', toggle_status, update_status. simpl.
split; [done|]. split.
- rewrite List.map_map. apply map_ext. intros r.
  by destruct (Nat.eqb (a_id r) record_id).
- intros i r Hi Hne. rewrite lookup_map, Hi. simpl.
  apply Nat.eqb_neq in Hne. by rewrite Hne.
Qed.

(** X15: pressing the toggle button of a row of today twice gives the
    database back, when the row's status is Present or Absent (ids being
    distinct, as the primary key makes them). *)
Theorem press_toggle_twice
    (today : string) (i : nat) (db : database) (row : attendance_row) :
  NoDup (map a_id (attendance db)) ->
  get_today_attendance today db !! i = Some row ->
  a_status row = "Present" \/ a_status row = "Absent" ->
  press_toggle today i (press_toggle today i db) = db.
Proof.
intros Hnd Hrow Hstatus.
assert (Hin : row ∈ attendance db).
{ apply list_elem_of_lookup_2 in Hrow.
  apply list_elem_of_In, filter_In in Hrow as [Hrow _].
  by apply list_elem_of_In. }
pose proof (holds_alone_in row _ Hnd Hin) as Halone.
unfold press_toggle at 2. rewrite Hrow.
set (new_status :=
       if String.eqb (a_status row) "Present" then "Absent" else "Present").
set (flip := fun r => if Nat.eqb (a_id r) (a_id row)
                      then mk_attendance (a_id r) (a_full_name r) (a_reg_no r)
                                         (a_date r) (a_time r) new_status
                      else r).
assert (Hdb1 : toggle_status (a_id row) (a_status row) db
               = mk_db (students db) (students_seq db)
                       (map flip (attendance db)) (attendance_seq db)) by done.
rewrite Hdb1. unfold press_toggle, get_today_attendance. simpl.
rewrite filter_map_commute;
  [|intros r; unfold flip; by destruct (Nat.eqb (a_id r) (a_id row))].
fold (get_today_attendance today db). rewrite lookup_map, Hrow. simpl.
unfold flip at 1 2. rewrite Nat.eqb_refl. simpl.
unfold toggle_status, update_status. simpl.
destruct db as [st sq rows aq]. simpl in *. f_equal.
rewrite List.map_map. rewrite <- (map_id rows) at 2. apply map_ext_in.
intros r Hr%list_elem_of_In. unfold flip.
destruct (Nat.eqb (a_id r) (a_id row)) eqn:E; simpl; rewrite E; [|done].
apply Nat.eqb_eq in E. rewrite (Halone r Hr E).
unfold new_status. destruct Hstatus as [Hs|Hs]; rewrite Hs; simpl;
  destruct row; simpl in *; by subst.
Qed.

Lemma press_toggle_twice_witness :
  let db :=
    mk_db [] 0
          [mk_attendance 1 "omar ali hasan" "20201002" "2024-04-30"
                         "09:00:00" "Present";
           mk_attendance 2 "omar ali hasan" "20201002" "2024-05-01"
                         "-" "Absent"]
          2 in
  press_toggle "2024-05-01" 0 (press_toggle "2024-05-01" 0 db) = db.
Proof.
intros db.
apply (press_toggle_twice "2024-05-01" 0 db
         (mk_attendance 2 "omar ali hasan" "20201002" "2024-05-01"
                        "-" "Absent")).
- apply (bool_decide_unpack _). vm_compute. exact I.
- reflexivity.
- by right.
Defined.

(** ** Enrollment *)





(** X17: a form whose name does not have exactly three parts, or whose
    registration number is empty after stripping, writes nothing and shows
    no enrollment message, whatever the registry holds. *)
Theorem invalid_form_does_nothing
    (today : string) (fm : form) (camera_opened : bool) (feed : list frame)
    (db : database) (fs : files) :
  name_valid (student_name fm) = false
  \/ PyStr.truthy (registration_number fm) = false ->
  enroll today fm camera_opened feed db fs = (db, fs, NothingToDo).
Proof.
intros Hbad. unfold enroll, allow_capture, reg_check.
destruct Hbad as [H|H]; rewrite H; simpl;
  rewrite ?andb_false_r; simpl; [done|].
by destruct (name_valid (student_name fm)).
Qed.

Lemma invalid_form_does_nothing_witness :
  let db := mk_db [mk_student 1 "omar ali hasan" "20201002"
                              "omar_ali_hasan_20201002" 5 "2024-04-01"]
                  1 [] 0 in
  enroll "2024-05-01" (mk_form "Omar Hasan" "20201002" true 5) true
         [mk_frame true 1 "a.jpg" (150 # 1) [[1 # 4]%Q] false]
         db (mk_files ∅ ∅)
  = (db, mk_files ∅ ∅, NothingToDo).
Proof.
intros db.
apply (invalid_form_does_nothing "2024-05-01"
         (mk_form "Omar Hasan" "20201002" true 5)).
by left.
Defined.

(** X18: for a registered number and a matching name, as long as the
    operator has not pressed "Continue Anyway" the page only warns that the
    student is registered: nothing is captured and nothing is written. *)
Theorem unconfirmed_re_enrollment_does_nothing
    (today : string) (fm : form) (camera_opened : bool) (feed : list frame)
    (db : database) (fs : files) (row : student_row) :
  fetch_student (registration_number fm) db = Some row ->
  name_valid (student_name fm) = true ->
  PyStr.truthy (registration_number fm) = true ->
  PyStr.lower (PyStr.strip (s_full_name row))
  = PyStr.lower (PyStr.strip (student_name fm)) ->
  session_allow_capture fm = false ->
  enroll today fm camera_opened feed db fs = (db, fs, AlreadyRegistered).
Proof.
intros Hrow Hvalid Hreg Hname Hno.
unfold enroll, allow_capture, reg_check.
apply String.eqb_eq in Hname.
rewrite Hrow, Hvalid, Hreg, Hname, Hno. simpl.
by rewrite ?andb_false_r.
Qed.

Lemma unconfirmed_re_enrollment_does_nothing_witness :
  let row := mk_student 1 "omar ali hasan" "20201002"
                        "omar_ali_hasan_20201002" 5 "2024-04-01" in
  let db := mk_db [row] 1 [] 0 in
  enroll "2024-05-01" (mk_form " OMAR Ali Hasan" "20201002" false 5) true
         [mk_frame true 1 "a.jpg" (150 # 1) [[1 # 4]%Q] false]
         db (mk_files ∅ ∅)
  = (db, mk_files ∅ ∅, AlreadyRegistered).
Proof.
intros row db.
exact (unconfirmed_re_enrollment_does_nothing "2024-05-01"
         (mk_form " OMAR Ali Hasan" "20201002" false 5) true _ db
         (mk_files ∅ ∅) row eq_refl eq_refl eq_refl eq_refl eq_refl).
Defined.

Lemma capture_frame_counts f c :
  counters_add_up c -> counters_add_up (capture_frame f c).
Proof.
unfold counters_add_up, capture_frame. intros Hc.
destruct (Nat.eqb (f_faces f) 0); simpl; [lia|].
destruct (Qltb (f_laplacian_var f) (100 # 1)); simpl; [lia|].
destruct (f_encoding f); simpl; lia.
Qed.

Lemma capture_frame_steps f c :
  total_attempts (capture_frame f c) = S (total_attempts c)
  /\ (accepted (capture_frame f c) <= S (accepted c))%nat.
Proof.
unfold capture_frame.
destruct (Nat.eqb (f_faces f) 0); simpl; [lia|].
destruct (Qltb (f_laplacian_var f) (100 # 1)); simpl; [lia|].
destruct (f_encoding f); simpl; lia.
Qed.

Lemma capture_loop_counts n feed : forall c,
  counters_add_up c ->
  (accepted c <= n)%nat ->
  let c' := capture_loop n feed c in
  counters_add_up c'
  /\ (accepted c' <= n)%nat
  /\ (total_attempts c' <= total_attempts c + List.length feed)%nat.
Proof.
induction feed as [|f feed IH]; intros c Hc Hn; simpl.
- destruct (Nat.ltb (accepted c) n); split_and!; try done; lia.
- destruct (Nat.ltb (accepted c) n) eqn:E; [|split_and!; try done; lia].
  apply Nat.ltb_lt in E.
  destruct (f_ret f); [|split_and!; try done; lia].
  pose proof (capture_frame_counts f c Hc) as Hc'.
  pose proof (capture_frame_steps f c) as [Ht Ha].
  destruct (f_esc f); [split_and!; try done; lia|].
  destruct (IH (capture_frame f c) Hc') as (H1 & H2 & H3); [lia|].
  split_and!; try done. lia.
Qed.

(** X19: the statistics of a capture session are consistent: the attempts
    are the accepted frames plus the three kinds of rejected ones; never
    more frames are accepted than were asked for; never more attempts are
    made than the camera delivered frames; and the accepted count is the
    number of embeddings collected. *)
Theorem capture_statistics_consistent
    (fm : form) (camera_opened : bool) (feed : list frame) (fs : files) :
  let c := session fm camera_opened feed fs in
  total_attempts c
  = (accepted c + rejected_blur c + rejected_encoding c
     + rejected_no_face c)%nat
  /\ (accepted c <= num_images_to_capture fm)%nat
  /\ (total_attempts c <= List.length feed)%nat
  /\ accepted c = List.length (encodings c).
Proof.
intros c. split_and!; [| | |apply session_ok].
all: unfold c, session; destruct camera_opened; simpl; try lia.
all: edestruct (capture_loop_counts (num_images_to_capture fm) feed
                  (capture_start
                     (default ∅ (dataset_dir fs
                        !! normalize_folder_name (student_name fm)
                             (registration_number fm)))))
       as (H1 & H2 & H3); [done|simpl; lia|]; simpl in *; try done; lia.
Qed.

Lemma capture_frame_images folder feed0 f c :
  f ∈ feed0 ->
  images_numbered folder feed0 c ->
  images_numbered folder feed0 (capture_frame f c).
Proof.
intros Hf [Hout Hin]. unfold capture_frame.
destruct (Nat.eqb (f_faces f) 0); simpl; [done|].
destruct (Qltb (f_laplacian_var f) (100 # 1)); simpl; [done|].
destruct (f_encoding f) as [|e es]; simpl; [done|].
split; simpl.
- intros i Hi. rewrite lookup_insert_ne; [|lia]. apply Hout. lia.
- intros i Hi. destruct (decide (i = S (accepted c))) as [->|Hne].
  + exists f. by rewrite lookup_insert_eq.
  + rewrite lookup_insert_ne; [|done]. apply Hin. lia.
Qed.

Lemma capture_loop_images folder feed0 n feed : forall c,
  (forall f, f ∈ feed -> f ∈ feed0) ->
  images_numbered folder feed0 c ->
  images_numbered folder feed0 (capture_loop n feed c).
Proof.
induction feed as [|f feed IH]; intros c Hsub Hc; simpl.
- by destruct (Nat.ltb (accepted c) n).
- destruct (Nat.ltb (accepted c) n); [|done].
  destruct (f_ret f); [|done].
  assert (Hc' : images_numbered folder feed0 (capture_frame f c)).
  { apply capture_frame_images; [|done]. apply Hsub, list_elem_of_here. }
  destruct (f_esc f); [done|].
  apply IH; [|done]. intros g Hg. by apply Hsub, list_elem_of_further.
Qed.

(** X20: the image files of a session are numbered from 1: after k
    accepted frames the student's folder holds under each number 1..k the
    crop of a frame of this session (replacing a file of that number left
    by an earlier session), and every file with a higher number is as it
    was found. *)
Theorem session_images_numbered
    (fm : form) (camera_opened : bool) (feed : list frame) (fs : files) :
  let folder :=
    default ∅ (dataset_dir fs
               !! normalize_folder_name (student_name fm)
                                        (registration_number fm)) in
  let c := session fm camera_opened feed fs in
  (forall i, (accepted c < i)%nat -> images c !! i = folder !! i)
  /\ (forall i, (1 <= i <= accepted c)%nat ->
        exists f, f ∈ feed /\ images c !! i = Some (f_face f)).
Proof.
intros folder c.
assert (H : images_numbered folder feed c).
{ unfold c, session. fold folder.
  assert (H0 : images_numbered folder feed (capture_start folder)).
  { split; simpl; [done|]. intros i Hi. lia. }
  destruct camera_opened; [|done]. by apply capture_loop_images. }
destruct H as [Hout Hin]. split; [|done].
intros i Hi. apply Hout. lia.
Qed.

Lemma find_student_other reg_no rn l new :
  reg_no <> rn -> s_reg_no new = rn ->
  List.find (fun s => String.eqb (s_reg_no s) reg_no)
            (List.filter (fun s => negb (String.eqb (s_reg_no s) rn)) l
             ++ [new])
  = List.find (fun s => String.eqb (s_reg_no s) reg_no) l.
Proof.
intros Hne Hnew. induction l as [|s l IH]; simpl.
- rewrite Hnew. apply not_eq_sym, String.eqb_neq in Hne. by rewrite Hne.
- destruct (String.eqb (s_reg_no s) rn) eqn:E; simpl.
  + apply String.eqb_eq in E. rewrite E.
    apply not_eq_sym, String.eqb_neq in Hne. by rewrite Hne.
  + by destruct (String.eqb (s_reg_no s) reg_no).
Qed.

Lemma enroll_database today fm camera_opened feed db fs :
  (enroll today fm camera_opened feed db fs).1.1 = db
  \/ (enroll today fm camera_opened feed db fs).1.1
     = insert_or_replace_student
         (PyStr.lower (PyStr.strip (student_name fm)))
         (registration_number fm)
         (normalize_folder_name (student_name fm) (registration_number fm))
         (match fetch_student (registration_number fm) db with
          | Some row => s_image_count row
          | None => 0%nat
          end + accepted (session fm camera_opened feed fs))
         today db.
Proof.
unfold enroll. destruct (allow_capture fm db).
- fold (session fm camera_opened feed fs). unfold save_enrollment.
  destruct (encodings (session fm camera_opened feed fs)); simpl; auto.
- left.
  repeat (match goal with
          | |- context [if ?b then _ else _] => destruct b
          | |- context [let '(_, _) := ?p in _] => destruct p
          end; simpl); done.
Qed.

(** X21: an enrollment never removes a student from the registry and never
    lowers an image count: a registration number found before is found
    afterwards, with at least the images it had, and with its row
    unchanged when the enrollment is for another number. *)
Theorem enroll_keeps_students
    (today : string) (fm : form) (camera_opened : bool) (feed : list frame)
    (db : database) (fs : files) (reg_no : string) (row : student_row) :
  fetch_student reg_no db = Some row ->
  exists row',
    fetch_student reg_no (enroll today fm camera_opened feed db fs).1.1
    = Some row'
    /\ (s_image_count row <= s_image_count row')%nat
    /\ (reg_no <> registration_number fm -> row' = row).
Proof.
intros Hrow.
destruct (enroll_database today fm camera_opened feed db fs) as [-> | ->].
- exists row. split_and!; [done|lia|done].
- destruct (decide (reg_no = registration_number fm)) as [->|Hne].
  + rewrite fetch_student_replaced, Hrow. eexists.
    split_and!; [done|simpl; lia|done].
  + exists row. split_and!; [|lia|done].
    unfold fetch_student, insert_or_replace_student. simpl.
    by rewrite find_student_other.
Qed.

Lemma enroll_keeps_students_witness :
  let row := mk_student 1 "omar ali hasan" "20201002"
                        "omar_ali_hasan_20201002" 5 "2024-04-01" in
  let db := mk_db [row] 1 [] 0 in
  let fm := mk_form "Ahmad Mahmoud Kraiem" "20201001" false 1 in
  let feed := [mk_frame true 1 "a.jpg" (150 # 1) [[1 # 4]%Q] false] in
  exists row',
    fetch_student "20201002"
      (enroll "2024-05-01" fm true feed db (mk_files ∅ ∅)).1.1 = Some row'
    /\ (5 <= s_image_count row')%nat.
Proof.
intros row db fm feed.
destruct (enroll_keeps_students "2024-05-01" fm true feed db (mk_files ∅ ∅)
            "20201002" row eq_refl) as (row' & H1 & H2 & _).
exists row'. exact (conj H1 H2).
Defined.

(** ** Keys and frames *)

Lemma next_rowid_fresh {A} (f : A -> nat) seq (l : list A) :
  next_rowid seq (map f l) ∉ map f l.
Proof.
intros Hin. apply list_elem_of_In, in_map_iff in Hin as (x & Hx & Hin).
pose proof (max_list_map_le f x l (proj2 (list_elem_of_In _ _) Hin)).
unfold next_rowid in Hx. lia.
Qed.

Lemma NoDup_map_snoc {A B} (f : A -> B) (l : list A) (x : A) :
  NoDup (map f l) -> f x ∉ map f l -> NoDup (map f (l ++ [x])).
Proof.
intros Hnd Hx. rewrite map_app. simpl. apply NoDup_app.
split_and!; [done| |apply NoDup_singleton].
intros y Hy ->%list_elem_of_singleton. done.
Qed.

Lemma keys_insert_attendance n r d t s db :
  keys_unique db -> keys_unique (insert_attendance n r d t s db).
Proof.
intros (Ha & Hs & Hr). split_and!; [|done|done]. simpl.
apply NoDup_map_snoc; [done|]. simpl. apply next_rowid_fresh.
Qed.

Lemma keys_update_attendance n r d t s id db :
  keys_unique db -> keys_unique (update_attendance n r d t s id db).
Proof.
intros (Ha & Hs & Hr). split_and!; [|done|done]. simpl.
rewrite List.map_map.
rewrite (map_ext _ a_id); [done|].
intros x. by destruct (Nat.eqb (a_id x) id).
Qed.

Lemma keys_update_status s id db :
  keys_unique db -> keys_unique (update_status s id db).
Proof.
intros (Ha & Hs & Hr). split_and!; [|done|done]. simpl.
rewrite List.map_map.
rewrite (map_ext _ a_id); [done|].
intros x. by destruct (Nat.eqb (a_id x) id).
Qed.

Lemma keys_delete_attendance id db :
  keys_unique db -> keys_unique (delete_attendance id db).
Proof.
intros (Ha & Hs & Hr). split_and!; [|done|done]. simpl.
by apply NoDup_map_filter.
Qed.

Lemma keys_exec_stmts stmts : forall db,
  keys_unique db -> keys_unique (foldl exec_stmt db stmts).
Proof.
induction stmts as [|s stmts IH]; intros db Hk; simpl; [done|].
apply IH. destruct s; simpl.
- by apply keys_delete_attendance.
- by apply keys_insert_attendance.
- by apply keys_update_attendance.
Qed.

Lemma keys_synthesize today names : forall db,
  keys_unique db -> keys_unique (foldl (synthesize_absent today) db names).
Proof.
induction names as [|n names IH]; intros db Hk; simpl; [done|].
apply IH. unfold synthesize_absent.
destruct (fetch_attendance n today db); [done|].
by apply keys_insert_attendance.
Qed.

Lemma keys_insert_or_replace_student n r f c d db :
  keys_unique db -> keys_unique (insert_or_replace_student n r f c d db).
Proof.
intros (Ha & Hs & Hr). split_and!; [done| |]; simpl.
- apply NoDup_map_snoc; [by apply NoDup_map_filter|]. simpl.
  intros Hin. apply (next_rowid_fresh s_id (students_seq db) (students db)).
  apply list_elem_of_In, in_map_iff in Hin as (x & Hx & Hin).
  apply filter_In in Hin as [Hin _].
  apply list_elem_of_In, in_map_iff. eauto.
- apply NoDup_map_snoc; [by apply NoDup_map_filter|]. simpl.
  intros Hin. apply list_elem_of_In, in_map_iff in Hin as (x & Hx & Hin).
  apply filter_In in Hin as [_ Hne].
  apply negb_true_iff, String.eqb_neq in Hne. done.
Qed.

Lemma keys_apply_op db op :
  keys_unique db -> keys_unique (apply_op db op).
Proof.
intros Hk.
destruct op as [cfg smtp today now n r|today|id st|orig filt cur
               |today fm o feed fs]; simpl.
- unfold mark_attendance. destruct (fetch_attendance n today db); simpl;
    [done|by apply keys_insert_attendance].
- by apply keys_synthesize.
- by apply keys_update_status.
- by apply keys_exec_stmts.
- destruct (enroll_database today fm o feed db fs) as [-> | ->];
    [done|by apply keys_insert_or_replace_student].
Qed.

(** X22: in every state reached from the empty database by any sequence
    of the pages' write operations, saves included, the attendance ids are
    pairwise distinct, and so are the student ids and the registration
    numbers of the registry. *)
Theorem keys_stay_unique (ops : list write_op) :
  NoDup (map a_id (attendance (run ops empty_db)))
  /\ NoDup (map s_id (students (run ops empty_db)))
  /\ NoDup (map s_reg_no (students (run ops empty_db))).
Proof.
change (keys_unique (run ops empty_db)). unfold run.
assert (H0 : keys_unique empty_db).
{ split_and!; simpl; apply NoDup_nil_2. }
revert H0. generalize empty_db.
induction ops as [|op ops IH]; intros db Hk; simpl; [done|].
by apply IH, keys_apply_op.
Qed.

Lemma students_exec_stmts stmts : forall db,
  students (foldl exec_stmt db stmts) = students db
  /\ students_seq (foldl exec_stmt db stmts) = students_seq db.
Proof.
induction stmts as [|s stmts IH]; intros db; simpl; [done|].
destruct (IH (exec_stmt db s)) as [-> ->]. by destruct s.
Qed.

Lemma students_synthesize today names : forall db,
  students (foldl (synthesize_absent today) db names) = students db
  /\ students_seq (foldl (synthesize_absent today) db names)
     = students_seq db.
Proof.
induction names as [|n names IH]; intros db; simpl; [done|].
destruct (IH (synthesize_absent today db n)) as [-> ->].
unfold synthesize_absent. by destruct (fetch_attendance n today db).
Qed.

(** X23: the pages keep to their own table: recognition, the report, the
    toggle and the save never change the registry (nor its id sequence),
    and an enrollment never changes the attendance table (nor its id
    sequence). *)
Theorem write_ops_keep_to_their_table (db : database) (op : write_op) :
  match op with
  | OpEnroll _ _ _ _ _ =>
      attendance (apply_op db op) = attendance db
      /\ attendance_seq (apply_op db op) = attendance_seq db
  | _ =>
      students (apply_op db op) = students db
      /\ students_seq (apply_op db op) = students_seq db
  end.
Proof.
destruct op as [cfg smtp today now n r|today|id st|orig filt cur
               |today fm o feed fs]; simpl.
- unfold mark_attendance. by destruct (fetch_attendance n today db).
- apply students_synthesize.
- done.
- apply students_exec_stmts.
- by destruct (enroll_database today fm o feed db fs) as [-> | ->].
Qed.

(** ** The Save Changes handler, in general *)

Lemma count_stmt_app p l1 l2 :
  count_stmt p (l1 ++ l2) = (count_stmt p l1 + count_stmt p l2)%nat.
Proof. unfold count_stmt. by rewrite List.filter_app, length_app. Qed.

Lemma count_deletes ids :
  count_stmt is_delete (map Delete ids) = List.length ids
  /\ count_stmt is_update (map Delete ids) = 0%nat
  /\ count_stmt is_insert (map Delete ids) = 0%nat.
Proof.
unfold count_stmt. induction ids as [|id ids (H1 & H2 & H3)]; simpl; [done|].
by rewrite H1, H2, H3.
Qed.

Lemma count_rows rows :
  count_stmt is_delete (map row_stmt rows) = 0%nat
  /\ count_stmt is_update (map row_stmt rows) = List.length (omap v_id rows)
  /\ (count_stmt is_insert (map row_stmt rows)
      + List.length (omap v_id rows))%nat = List.length rows.
Proof.
unfold count_stmt.
induction rows as [|v rows (H1 & H2 & H3)]; [done|].
destruct v as [[id|] d n r t s]; simpl;
  change (list_omap view_row nat v_id rows) with (omap v_id rows); lia.
Qed.

Lemma length_omap_v_id (rows : list view_row) :
  (List.length (omap v_id rows) <= List.length rows)%nat.
Proof.
induction rows as [|v rows IH]; [done|].
destruct v as [[id|] d n r t s]; simpl;
  change (list_omap view_row nat v_id rows) with (omap v_id rows); lia.
Qed.

Lemma length_ids_le (ids : list nat) (rows : list view_row) :
  NoDup ids ->
  (forall id, id ∈ ids -> Some id ∈ map v_id rows) ->
  (List.length ids <= List.length rows)%nat.
Proof.
intros Hnd Hsub.
etransitivity; [|apply length_omap_v_id].
apply submseteq_length, NoDup_submseteq; [done|].
intros id Hid. apply Hsub in Hid.
apply list_elem_of_In, in_map_iff in Hid as (v & Hv & Hin).
apply list_elem_of_omap. exists v. by rewrite list_elem_of_In.
Qed.

(** X24: a save sends one UPDATE for each row of the edited view that has
    an id, one INSERT for each row that has none, and one DELETE for each
    id of the snapshot that is shown in the filtered view and missing from
    the edited view; so never more DELETEs than the filtered view has
    rows. *)
Theorem save_statement_counts
    (original_all filtered current : list view_row) :
  let stmts := save_statements original_all filtered current in
  count_stmt is_update stmts = List.length (omap v_id current)
  /\ (count_stmt is_insert stmts + count_stmt is_update stmts)%nat
     = List.length current
  /\ (count_stmt is_delete stmts <= List.length filtered)%nat.
Proof.
intros stmts. unfold stmts, save_statements.
rewrite !count_stmt_app.
match goal with
| |- context [map Delete ?ids] =>
    destruct (count_deletes ids) as (D1 & D2 & D3);
    assert (Hle : (List.length ids <= List.length filtered)%nat)
end.
{ apply length_ids_le.
  - apply NoDup_list_difference, NoDup_remove_dups.
  - intros id' [Hid _]%list_elem_of_difference.
    apply elem_of_remove_dups, list_elem_of_omap in Hid as (v & Hv & Hvid).
    apply list_elem_of_In, filter_In in Hv as [_ Hv].
    apply bool_decide_eq_true in Hv. by rewrite Hvid in Hv. }
destruct (count_rows current) as (R1 & R2 & R3).
rewrite D1, D2, D3, R1, R2. split_and!; lia.
Qed.

(** X25: a save deletes only what the filtered view showed: every id
    deleted is the id of a row of the snapshot, is among the ids of the
    filtered view, and is the id of no row of the edited view. *)
Theorem save_deletes_within_view
    (original_all filtered current : list view_row) (id : nat) :
  Delete id ∈ save_statements original_all filtered current ->
  Some id ∈ map v_id filtered
  /\ (exists v, v ∈ original_all /\ v_id v = Some id)
  /\ forall v, v ∈ current -> v_id v <> Some id.
Proof.
unfold save_statements. intros [Hd|Hr]%elem_of_app.
- apply list_elem_of_In, in_map_iff in Hd as (x & [= ->] & Hx).
  apply list_elem_of_In, list_elem_of_difference in Hx as [Hx Hnot].
  apply elem_of_remove_dups, list_elem_of_omap in Hx as (v & Hv & Hvid).
  apply list_elem_of_In, filter_In in Hv as [Hv Hf].
  apply bool_decide_eq_true in Hf. rewrite Hvid in Hf.
  split_and!; [done|exists v; by rewrite list_elem_of_In|].
  intros w Hw Hwid. apply Hnot, list_elem_of_omap. eauto.
- apply list_elem_of_In, in_map_iff in Hr as (v & Hv & _).
  unfold row_stmt in Hv. by destruct (v_id v).
Qed.

Lemma save_deletes_within_view_witness :
  let shown := mk_view (Some 2) "2024-05-01" "omar ali hasan" "20201002"
                       "09:01:00" "Present" in
  let hidden := mk_view (Some 7) "2024-04-30" "lina sami odeh" "20201003"
                        "09:05:00" "Present" in
  Some 2%nat ∈ map v_id [shown]
  /\ (exists v, v ∈ [hidden; shown] /\ v_id v = Some 2%nat)
  /\ forall v, v ∈ [] -> v_id v <> Some 2%nat.
Proof.
intros shown hidden.
apply (save_deletes_within_view [hidden; shown] [shown] [] 2).
apply list_elem_of_here.
Defined.





(** ** Ties, and from enrollment to recognition *)

Lemma argmin_from_first ds : forall best_index best i,
  (argmin_from best_index best i ds = best_index)
  \/ (exists k d,
        argmin_from best_index best i ds = (i + k)%nat
        /\ ds !! k = Some d
        /\ (d < best)%Q
        /\ forall j d', (j < k)%nat -> ds !! j = Some d' -> (d < d')%Q).
Proof.
induction ds as [|d0 ds IH]; intros best_index best i; simpl; [by left|].
destruct (Qltb d0 best) eqn:E.
- apply Qltb_true in E. right.
  destruct (IH i d0 (S i)) as [Hr|(k & d & Hr & Hk & Hlt & Hfirst)].
  + exists 0%nat, d0. rewrite Hr. split_and!; [lia|done|done|].
    intros j d' Hj. lia.
  + exists (S k), d. rewrite Hr. split_and!; [lia|done| |].
    * by apply Qlt_trans with d0.
    * intros [|j] d' Hj Hd'; simpl in Hd'.
      -- by injection Hd' as <-.
      -- apply (Hfirst j); [lia|done].
- apply Qltb_false in E.
  destruct (IH best_index best (S i)) as [Hr|(k & d & Hr & Hk & Hlt & Hfirst)].
  + by left.
  + right. exists (S k), d. rewrite Hr. split_and!; [lia|done|done|].
    intros [|j] d' Hj Hd'; simpl in Hd'.
    * injection Hd' as <-. by apply Qlt_le_trans with best.
    * apply (Hfirst j); [lia|done].
Qed.

(** X27: among equally near known embeddings the loop takes the one
    stored first: the embedding whose name labels the face is strictly
    nearer than every embedding before it in the list. *)
Theorem classify_takes_first_nearest
    (distance : encoding -> encoding -> Q)
    (known_encodings : list encoding) (known_names : list string)
    (face_encoding : encoding) (name : string) (d : Q) :
  classify distance known_encodings known_names face_encoding
  = Some (Recognized name d) ->
  exists i known,
    known_encodings !! i = Some known
    /\ known_names !! i = Some name
    /\ d = distance known face_encoding
    /\ forall j earlier, (j < i)%nat -> known_encodings !! j = Some earlier ->
         (d < distance earlier face_encoding)%Q.
Proof.
unfold classify, face_distance.
destruct known_encodings as [|k0 ks]; [done|]. simpl.
set (ds := map (fun k => distance k face_encoding) ks).
destruct (argmin_from_first ds 0 (distance k0 face_encoding) 1)
  as [Hr|(k & dk & Hr & Hk & Hlt & Hfirst)]; rewrite Hr; simpl.
- destruct (Qltb _ threshold); [|done].
  destruct known_names as [|n ns]; [done|]. simpl. intros [= <- <-].
  exists 0%nat, k0. split_and!; [done|done|done|]. intros j e Hj. lia.
- rewrite Hk. unfold ds in Hk. rewrite lookup_map in Hk.
  destruct (ks !! k) as [known|] eqn:Hknown; [|done].
  simpl in Hk. injection Hk as <-.
  destruct (Qltb _ threshold); [|done].
  destruct (known_names !! S k) as [n|] eqn:Hn; [|done].
  intros [= <- <-]. exists (S k), known.
  split_and!; [done|done|done|].
  intros [|j] e Hj He; simpl in He.
  + by injection He as <-.
  + apply (Hfirst j); [lia|]. unfold ds. by rewrite lookup_map, He.
Qed.

Lemma classify_takes_first_nearest_witness :
  let distance := fun k e : encoding =>
    ((hd 0 k - hd 0 e) * (hd 0 k - hd 0 e))%Q in
  let known_encodings := [[5 # 10]; [1 # 10]; [1 # 10]]%Q in
  let known_names := ["lina_sami_odeh_20201003"; "omar_ali_hasan_20201002";
                      "omar_ali_hasan_20201009"] in
  exists i known,
    known_encodings !! i = Some known
    /\ known_names !! i = Some "omar_ali_hasan_20201002"
    /\ forall j earlier, (j < i)%nat -> known_encodings !! j = Some earlier ->
         (distance known [0%Q] < distance earlier [0%Q])%Q.
Proof.
intros distance known_encodings known_names.
destruct (classify_takes_first_nearest distance known_encodings known_names
            [0%Q] "omar_ali_hasan_20201002" _ eq_refl)
  as (i & known & H1 & H2 & H3 & H4).
exists i, known. split_and!; [done|done|].
intros j earlier Hj He. rewrite <- H3. by apply (H4 j).
Defined.



(** ** Attendance Records: the summary *)

Lemma ascii_compare_refl a : Ascii.compare a a = Eq.
Proof. unfold Ascii.compare. apply N.compare_refl. Qed.

Lemma ascii_compare_lt_trans a b c :
  Ascii.compare a b = Lt -> Ascii.compare b c = Lt -> Ascii.compare a c = Lt.
Proof.
unfold Ascii.compare. rewrite !N.compare_lt_iff. apply N.lt_trans.
Qed.

Lemma string_leb_trans a : forall b c,
  String.leb a b = true -> String.leb b c = true -> String.leb a c = true.
Proof.
unfold String.leb.
induction a as [|x a IH]; intros [|y b] [|z c]; simpl; try done.
destruct (Ascii.compare x y) eqn:Exy; [| |done];
  destruct (Ascii.compare y z) eqn:Eyz; try done.
- apply Ascii.compare_eq_iff in Exy, Eyz. subst.
  rewrite ascii_compare_refl. apply IH.
- apply Ascii.compare_eq_iff in Exy. subst. by rewrite Eyz.
- apply Ascii.compare_eq_iff in Eyz. subst. by rewrite Exy.
- by rewrite (ascii_compare_lt_trans _ _ _ Exy Eyz).
Qed.

Lemma string_leb_refl a : String.leb a a = true.
Proof. by destruct (String.leb_total a a). Qed.

Lemma least_of_spec ts : forall t,
  least_of t ts ∈ t :: ts
  /\ forall x, x ∈ t :: ts -> String.leb (least_of t ts) x = true.
Proof.
unfold least_of.
induction ts as [|u ts IH]; intros t; simpl.
- split; [apply list_elem_of_here|].
  intros x ->%list_elem_of_singleton. apply string_leb_refl.
- destruct (String.leb t u) eqn:E.
  + destruct (IH t) as [Hin Hle]. split.
    * apply elem_of_cons in Hin as [->|Hin];
        [apply list_elem_of_here|by do 2 apply list_elem_of_further].
    * intros x [->|[->|Hx]%elem_of_cons]%elem_of_cons.
      -- apply Hle, list_elem_of_here.
      -- apply string_leb_trans with t; [|done].
         apply Hle, list_elem_of_here.
      -- by apply Hle, list_elem_of_further.
  + assert (Hut : String.leb u t = true).
    { destruct (String.leb_total t u); [congruence|done]. }
    destruct (IH u) as [Hin Hle]. split.
    * by apply list_elem_of_further.
    * intros x [->|Hx]%elem_of_cons; [|by apply Hle].
      apply string_leb_trans with u; [|done]. apply Hle, list_elem_of_here.
Qed.

Lemma greatest_of_spec ts : forall t,
  greatest_of t ts ∈ t :: ts
  /\ forall x, x ∈ t :: ts -> String.leb x (greatest_of t ts) = true.
Proof.
unfold greatest_of.
induction ts as [|u ts IH]; intros t; simpl.
- split; [apply list_elem_of_here|].
  intros x ->%list_elem_of_singleton. apply string_leb_refl.
- destruct (String.leb u t) eqn:E.
  + destruct (IH t) as [Hin Hle]. split.
    * apply elem_of_cons in Hin as [->|Hin];
        [apply list_elem_of_here|by do 2 apply list_elem_of_further].
    * intros x [->|[->|Hx]%elem_of_cons]%elem_of_cons.
      -- apply Hle, list_elem_of_here.
      -- apply string_leb_trans with t; [done|].
         apply Hle, list_elem_of_here.
      -- by apply Hle, list_elem_of_further.
  + assert (Htu : String.leb t u = true).
    { destruct (String.leb_total t u); [done|congruence]. }
    destruct (IH u) as [Hin Hle]. split.
    * by apply list_elem_of_further.
    * intros x [->|Hx]%elem_of_cons; [|by apply Hle].
      apply string_leb_trans with u; [done|]. apply Hle, list_elem_of_here.
Qed.

Lemma elem_of_valid_times t df :
  t ∈ valid_times df <-> t <> "-" /\ exists v, v ∈ df /\ v_time v = t.
Proof.
unfold valid_times. rewrite list_elem_of_In, in_map_iff. split.
- intros (v & <- & Hv). apply filter_In in Hv as [Hv Hne].
  apply negb_true_iff, String.eqb_neq in Hne. split; [done|].
  exists v. by rewrite list_elem_of_In.
- intros (Hne & v & Hv & <-). exists v. split; [done|].
  apply filter_In. split; [by apply list_elem_of_In|].
  by apply negb_true_iff, String.eqb_neq.
Qed.

(** X29: the summary never reports the sentinel: when some shown record has
    a time other than ["-"], Earliest and Latest are times of shown
    records, different from ["-"], and every such time lies between them
    in the order of strings; when there is none, both are ["N/A"]. *)
Theorem summary_earliest_latest (df : list view_row) :
  (valid_times df = [] ->
   sum_earliest (summary df) = "N/A" /\ sum_latest (summary df) = "N/A")
  /\ (valid_times df <> [] ->
      sum_earliest (summary df) ∈ valid_times df
      /\ sum_latest (summary df) ∈ valid_times df
      /\ forall t, t ∈ valid_times df ->
           String.leb (sum_earliest (summary df)) t = true
           /\ String.leb t (sum_latest (summary df)) = true).
Proof.
unfold summary. simpl. destruct (valid_times df) as [|t ts]; split; try done.
intros _.
destruct (least_of_spec ts t) as [H1 H2].
destruct (greatest_of_spec ts t) as [H3 H4].
split_and!; [done|done|]. intros x Hx. split; [by apply H2|by apply H4].
Qed.

Lemma summary_earliest_latest_witness :
  let df := [mk_view (Some 1) "2024-05-01" "omar ali hasan" "20201002"
                     "09:10:00" "Present";
             mk_view (Some 2) "2024-05-01" "lina sami odeh" "20201003"
                     "-" "Absent";
             mk_view (Some 3) "2024-05-01" "ahmad mahmoud kraiem" "20201001"
                     "08:55:30" "Present"] in
  sum_earliest (summary df) ∈ valid_times df
  /\ sum_latest (summary df) ∈ valid_times df.
Proof.
intros df.
destruct (proj2 (summary_earliest_latest df) ltac:(discriminate))
  as (H1 & H2 & _).
exact (conj H1 H2).
Defined.

(** X30: the summary counts at most as many students as records, and it
    counts no student exactly when no record is shown; filtering by a
    student leaves at most one student to count. *)
Theorem summary_counts
    (in_range : string -> bool) (selected_date selected_name : option string)
    (df : list view_row) :
  (sum_unique_students (summary df) <= sum_total_records (summary df))%nat
  /\ (sum_unique_students (summary df) = 0%nat
      <-> sum_total_records (summary df) = 0%nat)
  /\ (is_Some selected_name ->
      (sum_unique_students
         (summary (apply_filters in_range selected_date selected_name df))
       <= 1)%nat).
Proof.
unfold summary. simpl. split_and!.
- rewrite <- (length_map v_full_name df).
  apply submseteq_length, NoDup_submseteq; [apply NoDup_remove_dups|].
  intros n. by rewrite elem_of_remove_dups.
- destruct df as [|v df]; [done|]. split; [|done].
  intros H%List.length_zero_iff_nil. exfalso.
  assert (Hin : v_full_name v ∈ remove_dups (map v_full_name (v :: df))).
  { apply elem_of_remove_dups. simpl. apply list_elem_of_here. }
  rewrite H in Hin. by apply elem_of_nil in Hin.
- intros [n ->]. unfold apply_filters.
  match goal with
  | |- context [List.filter (fun v => String.eqb (v_full_name v) n) ?l] =>
      generalize l
  end.
  intros l.
  assert (Hall : forall x,
            x ∈ remove_dups
                  (map v_full_name
                     (List.filter (fun v => String.eqb (v_full_name v) n) l))
            -> x = n).
  { intros x Hx. apply (proj1 (elem_of_remove_dups _ _)) in Hx.
    apply list_elem_of_In, in_map_iff in Hx as (v & <- & Hv).
    apply filter_In in Hv as [_ Hv]. by apply String.eqb_eq in Hv. }
  pose proof (NoDup_remove_dups
                (map v_full_name
                   (List.filter (fun v => String.eqb (v_full_name v) n) l)))
    as Hnd.
  destruct (remove_dups _) as [|a [|b rest]]; simpl; [lia|lia|].
  apply NoDup_cons in Hnd as [Hab _].
  destruct Hab. rewrite (Hall a), (Hall b).
  + apply list_elem_of_here.
  + apply list_elem_of_further, list_elem_of_here.
  + apply list_elem_of_here.
Qed.
